(** * IntelligentTrafficSystem.ino: a shallow embedding

    The sketch targets the Arduino UNO (ATmega328P, avr-gcc):
    [unsigned int] is 16 bits, [long] and [unsigned long] are 32 bits and
    [float] is IEEE-754 binary32.  Integers are modelled as [Z] with the
    wrap-around written out; [float] is modelled by the Standard Library's
    [SpecFloat] operations at precision 24 and maximal exponent 128
    (round to nearest, ties to even).

    Time: the state carries the board's clock in milliseconds; [millis()]
    reads it modulo 2^32 and [delay] advances it.  The environment of one
    iteration of [loop] supplies the time that passed before the iteration
    started, the level returned by each [digitalRead] of a button, and for
    each ultrasonic measurement the value returned by [pulseIn] and the
    time the measurement took.

    Outputs: the levels of the six LED pins.  [Serial] output, [pinMode]
    and the trigger pulse of the sensors do not influence the globals or
    the LEDs and are left out. *)

From Stdlib Require Import ZArith Lia List Bool.
From Stdlib Require Import Floats.SpecFloat.
Import ListNotations.

Local Open Scope Z_scope.

(** ** Machine integers *)

Definition wrap16 (z : Z) : Z := z mod 2 ^ 16.
Definition wrap32 (z : Z) : Z := z mod 2 ^ 32.

(** Conversion of a 32-bit pattern to [long] (two's complement). *)
Definition to_long (z : Z) : Z := (z + 2 ^ 31) mod 2 ^ 32 - 2 ^ 31.

(** ** binary32 arithmetic *)

Module F32.

Definition prec : Z := 24.
Definition emax : Z := 128.

Definition add := SFadd prec emax.
Definition mul := SFmul prec emax.
Definition div := SFdiv prec emax.
Definition ltb := SFltb.

(** [(float)n] for a non-negative integer [n]. *)
Definition of_uint (n : Z) : spec_float := binary_normalize prec emax n 0 false.

Definition zero : spec_float := S754_zero false.
Definition half : spec_float := S754_finite false 8388608 (-24).
(** The literal [0.01f] is the binary32 number nearest to 1/100. *)
Definition c0_01 : spec_float := div (of_uint 1) (of_uint 100).
Definition c30 : spec_float := of_uint 30.
Definition c60 : spec_float := of_uint 60.
Definition c90 : spec_float := of_uint 90.
Definition c1000 : spec_float := of_uint 1000.

(** [(unsigned long)f]: truncation toward zero; the conversion is
    undefined ([None]) when the truncated value is not representable. *)
Definition to_ulong (f : spec_float) : option Z :=
  match f with
  | S754_zero _ => Some 0
  | S754_finite s m e =>
      let t := Z.shiftl (Zpos m) e in
      if s then (if t =? 0 then Some 0 else None)
      else if t <? 2 ^ 32 then Some t else None
  | _ => None
  end.

(** *** Notions used to reason about rounding *)

(** The shift performed by [shr_fexp]. *)
Definition shift_of (m e : Z) : Z := Z.max 0 (fexp prec emax (Zdigits2 m + e) - e).

(** The last step of [binary_round_aux]. *)
Definition pack (s : bool) (m e : Z) : spec_float :=
  match m with
  | Z0 => S754_zero s
  | Zpos p => if e <=? emax - prec then S754_finite s p e else S754_infinity s
  | Zneg _ => S754_nan
  end.

(** Zero or a finite number. *)
Definition is_fin (f : spec_float) : bool :=
  match f with
  | S754_zero _ | S754_finite _ _ _ => true
  | _ => false
  end.

(** A normal binary32 number between 30 and 90. *)
Definition in_30_90 (m : positive) (e : Z) : Prop :=
  2 ^ 23 <= Zpos m < 2 ^ 24 /\
  ((e = -19 /\ 15728640 <= Zpos m) \/ e = -18 \/ (e = -17 /\ Zpos m <= 11796480)).

End F32.

(** ** Timing constants *)

Definition CYCLE_TOTAL_MS : Z := 120 * 1000.
Definition SENSOR_POLL_MS : Z := 60.
Definition EMERGENCY_GREEN_MS : Z := 10 * 1000.

Definition DIST_THRESHOLD_CM : Z := 60.
Definition PRESENCE_DEBOUNCE_MS : Z := 80.
Definition ABSENCE_DEBOUNCE_MS : Z := 120.

(** ** computeGreenMs *)

(** Lines 194-195: the two clamping assignments. *)
Definition clampSec (tsec : spec_float) : spec_float :=
  let t1 := if F32.ltb tsec F32.c30 then F32.c30 else tsec in
  if F32.ltb F32.c90 t1 then F32.c90 else t1.

(** Lines 191-193: [denom], [ratio] and the unclamped [tsec]. *)
Definition greenSeconds (x y : Z) : spec_float :=
  let denom := F32.add (F32.add (F32.of_uint x) (F32.of_uint y)) F32.c0_01 in
  let ratio := if F32.ltb F32.zero denom
               then F32.div (F32.of_uint x) denom else F32.half in
  F32.add (F32.mul ratio F32.c60) F32.c30.

Definition computeGreenMs (x y : Z) : option Z :=
  F32.to_ulong (F32.mul (clampSec (greenSeconds x y)) F32.c1000).

(** ** Pins, lights and controller state *)

Definition RED_A : Z := 2.
Definition YELLOW_A : Z := 3.
Definition GREEN_A : Z := 4.
Definition RED_B : Z := 5.
Definition YELLOW_B : Z := 6.
Definition GREEN_B : Z := 7.

Definition LOW : bool := false.
Definition HIGH : bool := true.

(** Levels of the six LED output pins. *)
Record Pins := mkPins {
  red_a : bool; yellow_a : bool; green_a : bool;
  red_b : bool; yellow_b : bool; green_b : bool
}.

Definition digitalWrite (pin : Z) (v : bool) (p : Pins) : Pins :=
  if pin =? RED_A then mkPins v (yellow_a p) (green_a p) (red_b p) (yellow_b p) (green_b p)
  else if pin =? YELLOW_A then mkPins (red_a p) v (green_a p) (red_b p) (yellow_b p) (green_b p)
  else if pin =? GREEN_A then mkPins (red_a p) (yellow_a p) v (red_b p) (yellow_b p) (green_b p)
  else if pin =? RED_B then mkPins (red_a p) (yellow_a p) (green_a p) v (yellow_b p) (green_b p)
  else if pin =? YELLOW_B then mkPins (red_a p) (yellow_a p) (green_a p) (red_b p) v (green_b p)
  else if pin =? GREEN_B then mkPins (red_a p) (yellow_a p) (green_a p) (red_b p) (yellow_b p) v
  else p.

Record SensorState := mkSensor {
  present : bool;
  lastChange : Z;
  waitingForAbsence : bool
}.

(** [SensorState()]: the default member initialisers. *)
Definition SensorState_init : SensorState := mkSensor false 0 false.

Inductive LightPhase := PHASE_RED | PHASE_YELLOW | PHASE_GREEN.

Inductive SystemState := STATE_COUNTING | STATE_EXECUTING_TIMES | STATE_EMERGENCY.

Definition LightPhase_eqb (p q : LightPhase) : bool :=
  match p, q with
  | PHASE_RED, PHASE_RED | PHASE_YELLOW, PHASE_YELLOW | PHASE_GREEN, PHASE_GREEN => true
  | _, _ => false
  end.

(** The globals of the sketch, the LED pins, and the board's clock in
    milliseconds since power-up ([millis()] is the clock modulo 2^32). *)
Record State := mkState {
  lastSensorPoll : Z;
  cycleStartTime : Z;
  countA : Z;
  countB : Z;
  sA : SensorState;
  sB : SensorState;
  sysState : SystemState;
  execPhaseStart : Z;
  greenDurationA : Z;
  greenDurationB : Z;
  executingAfirst : bool;
  emerActive : bool;
  emerStart : Z;
  emerRoad : Z;
  pins : Pins;
  clock : Z
}.

Definition set_lastSensorPoll v s :=
  mkState v (cycleStartTime s) (countA s) (countB s) (sA s) (sB s) (sysState s)
    (execPhaseStart s) (greenDurationA s) (greenDurationB s) (executingAfirst s)
    (emerActive s) (emerStart s) (emerRoad s) (pins s) (clock s).
Definition set_cycleStartTime v s :=
  mkState (lastSensorPoll s) v (countA s) (countB s) (sA s) (sB s) (sysState s)
    (execPhaseStart s) (greenDurationA s) (greenDurationB s) (executingAfirst s)
    (emerActive s) (emerStart s) (emerRoad s) (pins s) (clock s).
Definition set_countA v s :=
  mkState (lastSensorPoll s) (cycleStartTime s) v (countB s) (sA s) (sB s) (sysState s)
    (execPhaseStart s) (greenDurationA s) (greenDurationB s) (executingAfirst s)
    (emerActive s) (emerStart s) (emerRoad s) (pins s) (clock s).
Definition set_countB v s :=
  mkState (lastSensorPoll s) (cycleStartTime s) (countA s) v (sA s) (sB s) (sysState s)
    (execPhaseStart s) (greenDurationA s) (greenDurationB s) (executingAfirst s)
    (emerActive s) (emerStart s) (emerRoad s) (pins s) (clock s).
Definition set_sA v s :=
  mkState (lastSensorPoll s) (cycleStartTime s) (countA s) (countB s) v (sB s) (sysState s)
    (execPhaseStart s) (greenDurationA s) (greenDurationB s) (executingAfirst s)
    (emerActive s) (emerStart s) (emerRoad s) (pins s) (clock s).
Definition set_sB v s :=
  mkState (lastSensorPoll s) (cycleStartTime s) (countA s) (countB s) (sA s) v (sysState s)
    (execPhaseStart s) (greenDurationA s) (greenDurationB s) (executingAfirst s)
    (emerActive s) (emerStart s) (emerRoad s) (pins s) (clock s).
Definition set_sysState v s :=
  mkState (lastSensorPoll s) (cycleStartTime s) (countA s) (countB s) (sA s) (sB s) v
    (execPhaseStart s) (greenDurationA s) (greenDurationB s) (executingAfirst s)
    (emerActive s) (emerStart s) (emerRoad s) (pins s) (clock s).
Definition set_execPhaseStart v s :=
  mkState (lastSensorPoll s) (cycleStartTime s) (countA s) (countB s) (sA s) (sB s) (sysState s)
    v (greenDurationA s) (greenDurationB s) (executingAfirst s)
    (emerActive s) (emerStart s) (emerRoad s) (pins s) (clock s).
Definition set_greenDurationA v s :=
  mkState (lastSensorPoll s) (cycleStartTime s) (countA s) (countB s) (sA s) (sB s) (sysState s)
    (execPhaseStart s) v (greenDurationB s) (executingAfirst s)
    (emerActive s) (emerStart s) (emerRoad s) (pins s) (clock s).
Definition set_greenDurationB v s :=
  mkState (lastSensorPoll s) (cycleStartTime s) (countA s) (countB s) (sA s) (sB s) (sysState s)
    (execPhaseStart s) (greenDurationA s) v (executingAfirst s)
    (emerActive s) (emerStart s) (emerRoad s) (pins s) (clock s).
Definition set_executingAfirst v s :=
  mkState (lastSensorPoll s) (cycleStartTime s) (countA s) (countB s) (sA s) (sB s) (sysState s)
    (execPhaseStart s) (greenDurationA s) (greenDurationB s) v
    (emerActive s) (emerStart s) (emerRoad s) (pins s) (clock s).
Definition set_emerActive v s :=
  mkState (lastSensorPoll s) (cycleStartTime s) (countA s) (countB s) (sA s) (sB s) (sysState s)
    (execPhaseStart s) (greenDurationA s) (greenDurationB s) (executingAfirst s)
    v (emerStart s) (emerRoad s) (pins s) (clock s).
Definition set_emerStart v s :=
  mkState (lastSensorPoll s) (cycleStartTime s) (countA s) (countB s) (sA s) (sB s) (sysState s)
    (execPhaseStart s) (greenDurationA s) (greenDurationB s) (executingAfirst s)
    (emerActive s) v (emerRoad s) (pins s) (clock s).
Definition set_emerRoad v s :=
  mkState (lastSensorPoll s) (cycleStartTime s) (countA s) (countB s) (sA s) (sB s) (sysState s)
    (execPhaseStart s) (greenDurationA s) (greenDurationB s) (executingAfirst s)
    (emerActive s) (emerStart s) v (pins s) (clock s).
Definition set_pins v s :=
  mkState (lastSensorPoll s) (cycleStartTime s) (countA s) (countB s) (sA s) (sB s) (sysState s)
    (execPhaseStart s) (greenDurationA s) (greenDurationB s) (executingAfirst s)
    (emerActive s) (emerStart s) (emerRoad s) v (clock s).
Definition set_clock v s :=
  mkState (lastSensorPoll s) (cycleStartTime s) (countA s) (countB s) (sA s) (sB s) (sysState s)
    (execPhaseStart s) (greenDurationA s) (greenDurationB s) (executingAfirst s)
    (emerActive s) (emerStart s) (emerRoad s) (pins s) v.

(** ** Time *)

Definition millis (s : State) : Z := wrap32 (clock s).

(** [delay(ms)] and any other passage of time. *)
Definition delay (ms : Z) (s : State) : State := set_clock (clock s + ms) s.

(** ** Helper functions of the sketch *)

Definition setLed (pin : Z) (on : bool) (s : State) : State :=
  set_pins (digitalWrite pin (if on then HIGH else LOW) (pins s)) s.

Definition setRoadLightsA (p : LightPhase) (s : State) : State :=
  let s := setLed RED_A (LightPhase_eqb p PHASE_RED) s in
  let s := setLed YELLOW_A (LightPhase_eqb p PHASE_YELLOW) s in
  setLed GREEN_A (LightPhase_eqb p PHASE_GREEN) s.

Definition setRoadLightsB (p : LightPhase) (s : State) : State :=
  let s := setLed RED_B (LightPhase_eqb p PHASE_RED) s in
  let s := setLed YELLOW_B (LightPhase_eqb p PHASE_YELLOW) s in
  setLed GREEN_B (LightPhase_eqb p PHASE_GREEN) s.

(** What a road's three LEDs display, when exactly one of them is lit. *)
Definition phaseOfLeds (r y g : bool) : option LightPhase :=
  match r, y, g with
  | true, false, false => Some PHASE_RED
  | false, true, false => Some PHASE_YELLOW
  | false, false, true => Some PHASE_GREEN
  | _, _, _ => None
  end.

Definition roadA (s : State) : option LightPhase :=
  phaseOfLeds (red_a (pins s)) (yellow_a (pins s)) (green_a (pins s)).

Definition roadB (s : State) : option LightPhase :=
  phaseOfLeds (red_b (pins s)) (yellow_b (pins s)) (green_b (pins s)).

(** [measureDistanceCM]: [echo] is what [pulseIn] returns (the width of the
    echo pulse in microseconds, 0 on timeout) and [lat] the milliseconds the
    measurement takes. *)
Definition measureDistanceCM (echo lat : Z) (s : State) : Z * State :=
  let duration := to_long echo in
  (if duration =? 0 then -1 else Z.quot duration 58, delay lat s).

(** Line 156 of [updateSensor]. *)
Definition isPresentAt (d : Z) : bool := (0 <? d) && (d <=? DIST_THRESHOLD_CM).

(** Lines 158-185 of [updateSensor]: the debounced presence state machine,
    on the referenced sensor state and counter. *)
Definition debounce (isPresent : bool) (now : Z) (ss : SensorState) (counter : Z)
  : SensorState * Z :=
  if negb (Bool.eqb isPresent (present ss)) then
    if (if isPresent then PRESENCE_DEBOUNCE_MS else ABSENCE_DEBOUNCE_MS)
         <=? wrap32 (now - lastChange ss) then
      let ss := mkSensor isPresent now (waitingForAbsence ss) in
      if isPresent then
        (mkSensor (present ss) (lastChange ss) true, counter)
      else if waitingForAbsence ss then
        (mkSensor (present ss) (lastChange ss) false, wrap16 (counter + 1))
      else (ss, counter)
    else (ss, counter)
  else (ss, counter).

Definition updateSensor (ss : SensorState) (counter : Z) (echo lat : Z) (s : State)
  : SensorState * Z * State :=
  let '(d, s) := measureDistanceCM echo lat s in
  let now := millis s in
  let isPresent := isPresentAt d in
  (debounce isPresent now ss counter, s).

Definition startExecutionPhase (s : State) : option State :=
  match computeGreenMs (countA s) (countB s) with
  | None => None
  | Some g =>
      let s := set_greenDurationA g s in
      let s := set_greenDurationB (wrap32 (CYCLE_TOTAL_MS - greenDurationA s)) s in
      let s := set_executingAfirst (countB s <=? countA s) s in
      let s := set_sysState STATE_EXECUTING_TIMES s in
      let s := set_execPhaseStart (millis s) s in
      Some (if executingAfirst s
            then setRoadLightsB PHASE_RED (setRoadLightsA PHASE_GREEN s)
            else setRoadLightsB PHASE_GREEN (setRoadLightsA PHASE_RED s))
  end.

Definition triggerEmergency (road : Z) (s : State) : State :=
  let s := set_emerActive true s in
  let s := set_emerStart (millis s) s in
  let s := set_emerRoad road s in
  let s := set_sysState STATE_EMERGENCY s in
  if road =? 1
  then setRoadLightsB PHASE_RED (setRoadLightsA PHASE_GREEN s)
  else setRoadLightsB PHASE_GREEN (setRoadLightsA PHASE_RED s).

Definition resetCountingCycle (s : State) : State :=
  let s := set_countB 0 (set_countA 0 s) in
  let s := set_sB SensorState_init (set_sA SensorState_init s) in
  let s := set_cycleStartTime (millis s) s in
  let s := set_sysState STATE_COUNTING s in
  set_lastSensorPoll 0 s.

(** The globals as initialised at their declarations, all LEDs off. *)
Definition power_on : State :=
  mkState 0 0 0 0 SensorState_init SensorState_init STATE_COUNTING
    0 (60 * 1000) (60 * 1000) true false 0 0
    (mkPins false false false false false false) 0.

Definition setup (s : State) : State :=
  let s := delay 100 s in
  let s := setRoadLightsB PHASE_RED (setRoadLightsA PHASE_RED s) in
  resetCountingCycle s.

(** ** One iteration of [loop] *)

(** What the environment supplies to one iteration: the milliseconds that
    passed since the previous iteration returned, the level of each
    [digitalRead] of the two buttons (the second read of a button only
    happens when the first was [LOW]), and for each sensor the [pulseIn]
    result and the duration of the measurement. *)
Record Input := mkInput {
  idle : Z;
  readA1 : bool; readA2 : bool;
  readB1 : bool; readB2 : bool;
  echoA : Z; latA : Z;
  echoB : Z; latB : Z
}.

(** Lines 295-301 and 302-307. *)
Definition checkButton (r1 r2 : bool) (road : Z) (s : State) : State :=
  if Bool.eqb r1 LOW then
    let s := delay 10 s in
    if Bool.eqb r2 LOW then triggerEmergency road s else s
  else s.

Definition checkButtons (inp : Input) (s : State) : State :=
  checkButton (readB1 inp) (readB2 inp) 2
    (checkButton (readA1 inp) (readA2 inp) 1 s).

(** The [STATE_COUNTING] case: lines 312-324. *)
Definition stepCounting (inp : Input) (now : Z) (s : State) : option State :=
  let s :=
    if SENSOR_POLL_MS <=? wrap32 (now - lastSensorPoll s) then
      let s := set_lastSensorPoll now s in
      let '(ss, c, s) := updateSensor (sA s) (countA s) (echoA inp) (latA inp) s in
      let s := set_countA c (set_sA ss s) in
      let '(ss, c, s) := updateSensor (sB s) (countB s) (echoB inp) (latB inp) s in
      set_countB c (set_sB ss s)
    else s in
  if CYCLE_TOTAL_MS <=? wrap32 (now - cycleStartTime s)
  then startExecutionPhase s
  else Some s.

(** The [STATE_EXECUTING_TIMES] case: lines 326-371. *)
Definition stepExecuting (now : Z) (s : State) : State :=
  let elapsed := wrap32 (now - execPhaseStart s) in
  if executingAfirst s then
    if elapsed <? greenDurationA s then s
    else if elapsed <? wrap32 (greenDurationA s + 3000) then
      setRoadLightsB PHASE_RED (setRoadLightsA PHASE_YELLOW s)
    else if elapsed <? wrap32 (wrap32 (greenDurationA s + 3000) + greenDurationB s) then
      setRoadLightsB PHASE_GREEN (setRoadLightsA PHASE_RED s)
    else if elapsed <? wrap32 (wrap32 (wrap32 (greenDurationA s + 3000) + greenDurationB s) + 3000) then
      setRoadLightsB PHASE_YELLOW (setRoadLightsA PHASE_RED s)
    else resetCountingCycle s
  else
    if elapsed <? greenDurationB s then s
    else if elapsed <? wrap32 (greenDurationB s + 3000) then
      setRoadLightsB PHASE_YELLOW (setRoadLightsA PHASE_RED s)
    else if elapsed <? wrap32 (wrap32 (greenDurationB s + 3000) + greenDurationA s) then
      setRoadLightsB PHASE_RED (setRoadLightsA PHASE_GREEN s)
    else if elapsed <? wrap32 (wrap32 (wrap32 (greenDurationB s + 3000) + greenDurationA s) + 3000) then
      setRoadLightsB PHASE_RED (setRoadLightsA PHASE_YELLOW s)
    else resetCountingCycle s.

(** The [STATE_EMERGENCY] case: lines 373-382. *)
Definition stepEmergency (now : Z) (s : State) : State :=
  if EMERGENCY_GREEN_MS <=? wrap32 (now - emerStart s) then
    let s := set_emerActive false s in
    let s := set_emerRoad 0 s in
    resetCountingCycle s
  else s.

(** The [switch (sysState)] of [loop]. *)
Definition stateMachine (inp : Input) (now : Z) (s : State) : option State :=
  match sysState s with
  | STATE_COUNTING => stepCounting inp now s
  | STATE_EXECUTING_TIMES => Some (stepExecuting now s)
  | STATE_EMERGENCY => Some (stepEmergency now s)
  end.

Definition loop (inp : Input) (s : State) : option State :=
  let s := delay (idle inp) s in
  let now := millis s in
  let s := checkButtons inp s in
  option_map (delay 1) (stateMachine inp now s).

(** A run of iterations, stopping at the first undefined one. *)
Fixpoint run (inps : list Input) (s : State) : option State :=
  match inps with
  | [] => Some s
  | inp :: rest =>
      match loop inp s with
      | Some s' => run rest s'
      | None => None
      end
  end.

(** ** Notions used in the statements *)

(** Both reads of a button returned LOW. *)
Definition pressed (r1 r2 : bool) : bool := Bool.eqb r1 LOW && Bool.eqb r2 LOW.
Definition pressedA (inp : Input) : bool := pressed (readA1 inp) (readA2 inp).
Definition pressedB (inp : Input) : bool := pressed (readB1 inp) (readB2 inp).

(** Lines 377-380: what the [STATE_EMERGENCY] case does once the test of
    line 375 succeeds. *)
Definition endEmergency (s : State) : State :=
  resetCountingCycle (set_emerRoad 0 (set_emerActive false s)).

(** Inputs of an iteration that starts immediately: button A down, button
    B down, both down; and no button down after [ms] milliseconds.  The
    sensors time out. *)
Definition pressA : Input := mkInput 0 LOW LOW HIGH HIGH 0 0 0 0.
Definition pressB : Input := mkInput 0 HIGH HIGH LOW LOW 0 0 0 0.
Definition pressBoth : Input := mkInput 0 LOW LOW LOW LOW 0 0 0 0.
Definition quietInput (ms : Z) : Input := mkInput ms HIGH HIGH HIGH HIGH 0 0 0 0.

(** The state reached from power-up once the first counting window has
    closed with no vehicle counted (road A first, 30 s and 90 s) and the
    execution window is 40 s old: road A is Red and road B Green. *)
Definition midGreenB : State :=
  match run [quietInput 120000; quietInput 40000] (setup power_on) with
  | Some s => s
  | None => power_on
  end.

(** The sequencer as the specification words it: four contiguous segments,
    half-open on the left; [None] once the window is complete. *)
Definition spec_phaseAt (elapsed durationA durationB : Z) (firstRoadA : bool)
    (yellowDuration : Z) : option (LightPhase * LightPhase) :=
  let d1 := if firstRoadA then durationA else durationB in
  let d2 := if firstRoadA then durationB else durationA in
  let lights (first second : LightPhase) :=
    if firstRoadA then (first, second) else (second, first) in
  if elapsed <? d1 then Some (lights PHASE_GREEN PHASE_RED)
  else if elapsed <? d1 + yellowDuration then Some (lights PHASE_YELLOW PHASE_RED)
  else if elapsed <? d1 + yellowDuration + d2 then Some (lights PHASE_RED PHASE_GREEN)
  else if elapsed <? d1 + yellowDuration + d2 + yellowDuration
       then Some (lights PHASE_RED PHASE_YELLOW)
  else None.



(** Milliseconds since the execution window started (modulo 2^32). *)
Definition offset (s : State) : Z := wrap32 (clock s - execPhaseStart s).

Definition firstDuration (s : State) : Z :=
  if executingAfirst s then greenDurationA s else greenDurationB s.

Definition planTotal (s : State) : Z :=
  greenDurationA s + 3000 + greenDurationB s + 3000.

Definition planFits (s : State) : Prop :=
  0 <= greenDurationA s /\ 0 <= greenDurationB s /\ planTotal s < 2 ^ 32.

Definition firstGreen (s : State) : Prop :=
  roadA s = Some (if executingAfirst s then PHASE_GREEN else PHASE_RED) /\
  roadB s = Some (if executingAfirst s then PHASE_RED else PHASE_GREEN).

Definition samePlan (s s' : State) : Prop :=
  greenDurationA s' = greenDurationA s /\ greenDurationB s' = greenDurationB s /\
  executingAfirst s' = executingAfirst s /\ execPhaseStart s' = execPhaseStart s.


Definition countsInRange (s : State) : Prop :=
  0 <= countA s < 2 ^ 16 /\ 0 <= countB s < 2 ^ 16.

(** A sensor poll as [debounce] sees it: the computed presence and the
    [millis()] reading. *)
Definition Poll : Type := bool * Z.

(** Successive polls of one sensor. *)
Fixpoint feed (polls : list Poll) (ss : SensorState) (counter : Z) : SensorState * Z :=
  match polls with
  | [] => (ss, counter)
  | (p, now) :: rest =>
      let '(ss', counter') := debounce p now ss counter in
      feed rest ss' counter'
  end.

(** The number of polls at which the counter was incremented. *)
Fixpoint passEvents (polls : list Poll) (ss : SensorState) (counter : Z) : nat :=
  match polls with
  | [] => O
  | (p, now) :: rest =>
      let '(ss', counter') := debounce p now ss counter in
      ((if (counter' =? counter)%Z then 0 else 1) + passEvents rest ss' counter')%nat
  end.

Definition clearsPresence (ss : SensorState) (r : Poll) : Prop :=
  PRESENCE_DEBOUNCE_MS <= wrap32 (snd r - lastChange ss).

Definition clearsAbsence (ss : SensorState) (r : Poll) : Prop :=
  ABSENCE_DEBOUNCE_MS <= wrap32 (snd r - lastChange ss).

(** [f] holds at [fuel] consecutive integers from [z] on. *)
Fixpoint all_from (f : Z -> bool) (z : Z) (fuel : nat) : bool :=
  match fuel with
  | O => true
  | S k => if f z then all_from f (z + 1) k else false
  end.

(** The allocation for equal counts [n]: 30 s when [n = 0], otherwise
    within 150 ms below 60 s. *)
Definition equalCountsOK (n : Z) : bool :=
  match computeGreenMs n n with
  | Some a => if n =? 0 then a =? 30000 else (59850 <=? a) && (a <=? 60000)
  | None => false
  end.

(** The state after [setup] with the two counters set. *)
Definition withCounts (x y : Z) : State := set_countB y (set_countA x (setup power_on)).

(** The start of an execution window at t = 100 with the plan: road A
    first, 50 s for road A, 70 s for road B. *)
Definition execExample : State :=
  setRoadLightsB PHASE_RED (setRoadLightsA PHASE_GREEN
    (set_execPhaseStart 100 (set_sysState STATE_EXECUTING_TIMES
       (set_executingAfirst true (set_greenDurationB 70000
          (set_greenDurationA 50000 (setup power_on))))))).

(** What is observable after an iteration: the mode and the two lights. *)
Definition observe (s : State) : SystemState * option LightPhase * option LightPhase :=
  (sysState s, roadA s, roadB s).

(** The observations after each iteration of a run. *)
Fixpoint trace (inps : list Input) (s : State)
  : list (SystemState * option LightPhase * option LightPhase) :=
  match inps with
  | [] => []
  | inp :: rest =>
      match loop inp s with
      | Some s' => observe s' :: trace rest s'
      | None => []
      end
  end.

(** ** Notions used in the further properties *)

(** Two states that differ at most in what a sensor poll writes: the
    counters, the sensor states, [lastSensorPoll] and the clock. *)
Definition samePlanAndLights (s s' : State) : Prop :=
  sysState s' = sysState s /\ cycleStartTime s' = cycleStartTime s /\
  execPhaseStart s' = execPhaseStart s /\
  greenDurationA s' = greenDurationA s /\ greenDurationB s' = greenDurationB s /\
  executingAfirst s' = executingAfirst s /\
  emerActive s' = emerActive s /\ emerStart s' = emerStart s /\
  emerRoad s' = emerRoad s /\ pins s' = pins s.

(** Each road displays one colour and at least one road is Red. *)
Definition safeLights (s : State) : bool :=
  match roadA s, roadB s with
  | Some PHASE_RED, Some _ => true
  | Some _, Some PHASE_RED => true
  | _, _ => false
  end.

(** Milliseconds spent in the button checks of an iteration in which no
    signal is observed: [delay(10)] after each first read that is LOW. *)
Definition buttonDelay (inp : Input) : Z :=
  (if Bool.eqb (readA1 inp) LOW then 10 else 0) +
  (if Bool.eqb (readB1 inp) LOW then 10 else 0).

(** What one poll does to the sensor of road A and its counter, and to
    those of road B, measured after road A. *)
Definition pollA (inp : Input) (s : State) : SensorState * Z :=
  fst (updateSensor (sA s) (countA s) (echoA inp) (latA inp) s).

Definition pollB (inp : Input) (s : State) : SensorState * Z :=
  fst (updateSensor (sB s) (countB s) (echoB inp) (latB inp) (delay (latA inp) s)).

(** No iteration of [inps], run from [s], observes a signal, and each
    samples the clock before the counting window has elapsed. *)
Fixpoint insideWindow (inps : list Input) (s : State) : bool :=
  match inps with
  | [] => true
  | inp :: rest =>
      negb (pressedA inp || pressedB inp) &&
      (wrap32 (millis (delay (idle inp) s) - cycleStartTime s) <? CYCLE_TOTAL_MS) &&
      match loop inp s with
      | Some s' => insideWindow rest s'
      | None => false
      end
  end.

(** Two inputs that differ at most in what the sensors return. *)
Definition sameButtons (inp inp' : Input) : Prop :=
  idle inp' = idle inp /\
  readA1 inp' = readA1 inp /\ readA2 inp' = readA2 inp /\
  readB1 inp' = readB1 inp /\ readB2 inp' = readB2 inp.

(** No emergency is recorded. *)
Definition emergencyIdle (s : State) : Prop :=
  sysState s <> STATE_EMERGENCY /\ emerActive s = false /\ emerRoad s = 0.

(** The flag [waitingForAbsence] repeats [present]. *)
Definition sensorConsistent (ss : SensorState) : Prop :=
  waitingForAbsence ss = present ss.

(** Both sensor states are so. *)
Definition sensorsConsistent (s : State) : Prop :=
  sensorConsistent (sA s) /\ sensorConsistent (sB s).

(** A binary32 value greater than zero. *)
Definition isPositive (f : spec_float) : bool :=
  match f with
  | S754_finite false _ _ | S754_infinity false => true
  | _ => false
  end.

(** Zero or greater, and not the negative zero. *)
Definition isNonneg (f : spec_float) : bool :=
  match f with
  | S754_zero false => true
  | _ => isPositive f
  end.

(** Line 191: [denom]. *)
Definition denomOf (x y : Z) : spec_float :=
  F32.add (F32.add (F32.of_uint x) (F32.of_uint y)) F32.c0_01.

(** A vehicle at 20 cm on road A (echo of 1160 us), nothing on road B. *)
Definition vehicleOnA (ms : Z) : Input := mkInput ms HIGH HIGH HIGH HIGH 1160 2 0 30.

(** Button A read LOW once and HIGH 10 ms later. *)
Definition glitchA : Input := mkInput 0 LOW HIGH HIGH HIGH 0 0 0 0.

(** The state in which an iteration that observes button A leaves the
    controller after [setup]. *)
Definition afterPressA : State :=
  delay 1 (endEmergency (checkButtons pressA (delay (idle pressA) (setup power_on)))).

(** * Properties *)

(** ** binary32 rounding *)

Section F32Facts.

Import F32.

(** Number of binary digits of a non-negative integer. *)
Lemma digits2_pos_log2 (p : positive) : Zpos (digits2_pos p) = Z.log2 (Zpos p) + 1.
Proof.
  assert (H : forall q, digits2_pos q = Pos.size q)
    by (induction q; simpl; congruence).
  rewrite H. destruct p; simpl; lia.
Qed.

Lemma Zdigits2_log2 (m : Z) : 0 < m -> Zdigits2 m = Z.log2 m + 1.
Proof. destruct m; try lia. intros _. apply digits2_pos_log2. Qed.

Lemma shr_1_m (r : shr_record) :
  0 <= shr_m r -> shr_m (shr_1 r) = Z.shiftr (shr_m r) 1.
Proof.
  destruct r as [m rb sb]; simpl. intros H.
  destruct m as [|[p|p|]|]; try lia; reflexivity.
Qed.

Lemma iter_shr_1_m (p : positive) : forall r,
  0 <= shr_m r -> shr_m (iter_pos shr_1 p r) = Z.shiftr (shr_m r) (Zpos p).
Proof.
  induction p as [p IH|p IH|]; intros r Hr; simpl.
  - assert (H1 : 0 <= shr_m (shr_1 r))
      by (rewrite shr_1_m by assumption; apply Z.shiftr_nonneg; assumption).
    assert (H2 : 0 <= shr_m (iter_pos shr_1 p (shr_1 r)))
      by (rewrite IH by assumption; apply Z.shiftr_nonneg; assumption).
    rewrite IH, IH, shr_1_m by assumption.
    rewrite !Z.shiftr_shiftr by lia. f_equal. lia.
  - assert (H2 : 0 <= shr_m (iter_pos shr_1 p r))
      by (rewrite IH by assumption; apply Z.shiftr_nonneg; assumption).
    rewrite IH, IH by assumption.
    rewrite !Z.shiftr_shiftr by lia. f_equal. lia.
  - apply shr_1_m; assumption.
Qed.

Lemma shr_record_of_loc_m m l : shr_m (shr_record_of_loc m l) = m.
Proof. destruct l as [|[| |]]; reflexivity. Qed.

Lemma shr_fexp_spec m e l :
  0 <= m ->
  shr_m (fst (shr_fexp prec emax m e l)) = Z.shiftr m (shift_of m e) /\
  snd (shr_fexp prec emax m e l) = e + shift_of m e.
Proof.
  intros Hm. unfold shr_fexp, shr, shift_of.
  destruct (fexp prec emax (Zdigits2 m + e) - e) as [|p|p] eqn:E; simpl.
  - rewrite shr_record_of_loc_m. rewrite Z.shiftr_0_r. lia.
  - rewrite iter_shr_1_m by (rewrite shr_record_of_loc_m; assumption).
    rewrite shr_record_of_loc_m. split; [reflexivity|lia].
  - rewrite shr_record_of_loc_m. rewrite Z.shiftr_0_r. lia.
Qed.

Lemma round_nearest_even_cases m l :
  round_nearest_even m l = m \/ round_nearest_even m l = m + 1.
Proof.
  destruct l as [|[| |]]; simpl; auto. destruct (Z.even m); auto.
Qed.

Lemma binary_round_aux_shape s m e l :
  0 <= m ->
  exists m2,
    let m1 := Z.shiftr m (shift_of m e) in
    let e1 := e + shift_of m e in
    (m2 = m1 \/ m2 = m1 + 1) /\
    binary_round_aux prec emax s m e l
    = pack s (Z.shiftr m2 (shift_of m2 e1)) (e1 + shift_of m2 e1).
Proof.
  intros Hm. unfold binary_round_aux.
  destruct (shr_fexp_spec m e l Hm) as [A1 A2].
  destruct (shr_fexp prec emax m e l) as [r1 e1]. simpl in A1, A2.
  set (m2 := round_nearest_even (shr_m r1) (loc_of_shr_record r1)).
  assert (H1 : 0 <= shr_m r1) by (rewrite A1; apply Z.shiftr_nonneg; assumption).
  assert (H2 : 0 <= m2)
    by (destruct (round_nearest_even_cases (shr_m r1) (loc_of_shr_record r1));
        unfold m2; lia).
  destruct (shr_fexp_spec m2 e1 loc_Exact H2) as [B1 B2].
  destruct (shr_fexp prec emax m2 e1 loc_Exact) as [r2 e2]. simpl in B1, B2.
  exists m2. simpl. split.
  - rewrite <- A1. apply round_nearest_even_cases.
  - rewrite B1, B2, A2. reflexivity.
Qed.

Lemma pack_not_nan s m e : 0 <= m -> pack s m e <> S754_nan.
Proof.
  destruct m; simpl; intros; try lia; try discriminate.
  destruct (_ <=? _); discriminate.
Qed.

Lemma binary_round_aux_not_nan s m e l :
  0 <= m -> binary_round_aux prec emax s m e l <> S754_nan.
Proof.
  intros Hm. destruct (binary_round_aux_shape s m e l Hm) as (m2 & [A B]).
  rewrite B. apply pack_not_nan. apply Z.shiftr_nonneg.
  pose proof (Z.shiftr_nonneg m (shift_of m e)). lia.
Qed.

Lemma fexp_eq e : fexp prec emax e = Z.max (e - 24) (-149).
Proof. reflexivity. Qed.

Lemma Zdigits2_nonneg m : 0 <= Zdigits2 m.
Proof. destruct m; simpl; lia. Qed.

Lemma Zdigits2_shiftr m k :
  0 < m -> 0 <= k <= Z.log2 m ->
  0 < Z.shiftr m k /\ Zdigits2 (Z.shiftr m k) = Zdigits2 m - k.
Proof.
  intros Hm Hk.
  assert (H0 : 0 < Z.shiftr m k).
  { assert (H : 0 <= Z.shiftr m k) by (apply Z.shiftr_nonneg; lia).
    destruct (Z.eq_dec (Z.shiftr m k) 0) as [E|E]; [|lia].
    apply Z.shiftr_eq_0_iff in E. lia. }
  split; [assumption|].
  rewrite !Zdigits2_log2 by assumption. rewrite Z.log2_shiftr by assumption. lia.
Qed.

Lemma Zdigits2_succ m :
  0 <= m -> Zdigits2 (m + 1) = Zdigits2 m \/ Zdigits2 (m + 1) = Zdigits2 m + 1.
Proof.
  intros Hm. destruct (Z.eq_dec m 0) as [->|Hn]; [right; reflexivity|].
  rewrite !Zdigits2_log2 by lia.
  destruct (Z.log2_succ_or m) as [H|H]; unfold Z.succ in H; lia.
Qed.

(** Renormalisation after rounding yields a canonical mantissa. *)
Lemma pack_renorm_valid s m2 e1 :
  0 <= m2 -> -149 <= e1 ->
  m2 = 0 \/ fexp prec emax (Zdigits2 m2 + e1) = e1
         \/ fexp prec emax (Zdigits2 m2 - 1 + e1) = e1 ->
  valid_binary prec emax
    (pack s (Z.shiftr m2 (shift_of m2 e1)) (e1 + shift_of m2 e1)) = true.
Proof.
  intros Hm He H.
  destruct (Z.eq_dec m2 0) as [->|Hn]; [rewrite Z.shiftr_0_l; reflexivity|].
  assert (Hd : Zdigits2 m2 = Z.log2 m2 + 1) by (apply Zdigits2_log2; lia).
  pose proof (Z.log2_nonneg m2) as Hl.
  assert (Hs : shift_of m2 e1 = 0 \/ (shift_of m2 e1 = 1 /\ 1 <= Z.log2 m2
               /\ fexp prec emax (Zdigits2 m2 + e1) = e1 + 1)).
  { unfold shift_of. rewrite !fexp_eq in *. lia. }
  destruct Hs as [Hs|(Hs & Hl1 & Hf)]; rewrite Hs.
  - rewrite Z.shiftr_0_r, Z.add_0_r.
    assert (Hc : fexp prec emax (Zdigits2 m2 + e1) = e1).
    { unfold shift_of in Hs. rewrite !fexp_eq in *. lia. }
    destruct m2 as [|p|p]; try lia. unfold pack.
    destruct (_ <=? _) eqn:Ee; [|reflexivity].
    simpl. unfold bounded, canonical_mantissa.
    change (Z.pos (digits2_pos p)) with (Zdigits2 (Z.pos p)).
    rewrite Hc, Z.eqb_refl. exact Ee.
  - destruct (Zdigits2_shiftr m2 1 ltac:(lia) ltac:(lia)) as [Hp Hd1].
    destruct (Z.shiftr m2 1) as [|p|p]; try lia. unfold pack.
    destruct (_ <=? _) eqn:Ee; [|reflexivity].
    simpl. unfold bounded, canonical_mantissa.
    change (Z.pos (digits2_pos p)) with (Zdigits2 (Z.pos p)).
    rewrite Hd1. replace (Zdigits2 m2 - 1 + (e1 + 1)) with (Zdigits2 m2 + e1) by lia.
    rewrite Hf, Z.eqb_refl. exact Ee.
Qed.

Lemma digits2_pos_iter_xO m d :
  Zpos (digits2_pos (PosDef.Pos.iter xO m d)) = Zpos (digits2_pos m) + Zpos d.
Proof.
  change (PosDef.Pos.iter xO m d) with (Pos.iter xO m d).
  induction d as [|d IH] using Pos.peano_ind.
  - simpl. lia.
  - rewrite Pos.iter_succ. simpl digits2_pos. lia.
Qed.

Lemma shl_align_spec mx ex fe mz ez :
  shl_align mx ex fe = (mz, ez) ->
  Zpos (digits2_pos mz) + ez = Zpos (digits2_pos mx) + ex /\ ez <= fe.
Proof.
  unfold shl_align.
  destruct (fe - ex) as [|d|d] eqn:E; intros [= <- <-];
    rewrite ?digits2_pos_iter_xO; lia.
Qed.

(** [binary_round] returns a canonical number, and a finite one unless the
    magnitude is out of range. *)
Lemma binary_round_valid s mx ex :
  let r := binary_round prec emax s mx ex in
  r <> S754_nan /\ valid_binary prec emax r = true /\
  (Zpos (digits2_pos mx) + ex <= 127 -> forall s', r <> S754_infinity s').
Proof.
  unfold binary_round.
  destruct (shl_align mx ex (fexp prec emax (Zpos (digits2_pos mx) + ex)))
    as [mz ez] eqn:H.
  apply shl_align_spec in H. destruct H as [HD Hez].
  set (D := Zpos (digits2_pos mx) + ex) in *.
  destruct (binary_round_aux_shape s (Zpos mz) ez loc_Exact ltac:(lia))
    as (m2 & Hm2 & Heq).
  assert (Hk : shift_of (Zpos mz) ez = fexp prec emax D - ez).
  { unfold shift_of. simpl Zdigits2. rewrite HD. lia. }
  rewrite Hk in Hm2, Heq.
  replace (ez + (fexp prec emax D - ez)) with (fexp prec emax D) in Heq by lia.
  set (e1 := fexp prec emax D) in *.
  set (k := e1 - ez) in *.
  assert (He1 : -149 <= e1) by (unfold e1; rewrite fexp_eq; lia).
  pose proof (digits2_pos_log2 mz) as Hlog.
  pose proof (Z.log2_nonneg (Zpos mz)) as Hlog0.
  assert (Hm1 : 0 <= Z.shiftr (Zpos mz) k) by (apply Z.shiftr_nonneg; lia).
  assert (Hm2' : 0 <= m2) by lia.
  (* the mantissa before renormalisation is canonical or one digit longer *)
  assert (Hcan : m2 = 0 \/ fexp prec emax (Zdigits2 m2 + e1) = e1
                 \/ fexp prec emax (Zdigits2 m2 - 1 + e1) = e1).
  { destruct (Z_le_gt_dec k (Z.log2 (Zpos mz))) as [Hle|Hgt].
    - destruct (Zdigits2_shiftr (Zpos mz) k ltac:(lia) ltac:(lia)) as [Hp Hd].
      simpl Zdigits2 in Hd at 2.
      assert (Hd1 : Zdigits2 (Z.shiftr (Zpos mz) k) + e1 = D) by (subst k; lia).
      destruct Hm2 as [->| ->].
      + right; left. rewrite Hd1. reflexivity.
      + destruct (Zdigits2_succ (Z.shiftr (Zpos mz) k) Hm1) as [E|E]; rewrite E.
        * right; left. rewrite Hd1. reflexivity.
        * right; right.
          replace (Zdigits2 (Z.shiftr (Z.pos mz) k) + 1 - 1 + e1) with D by lia.
          reflexivity.
    - rewrite (Z.shiftr_eq_0 (Zpos mz) k) in Hm2 by lia.
      destruct Hm2 as [->| ->]; [left; reflexivity|].
      right; right. change (Zdigits2 (0 + 1)) with 1.
      subst k e1. rewrite !fexp_eq in *. lia. }
  rewrite Heq. split; [|split].
  - apply pack_not_nan. apply Z.shiftr_nonneg. assumption.
  - apply pack_renorm_valid; assumption.
  - intros HD127 s'.
    assert (Hsh : e1 + shift_of m2 e1 <= emax - prec).
    { destruct (Z.eq_dec m2 0) as [->|Hn].
      - unfold shift_of. simpl Zdigits2. subst k e1. rewrite !fexp_eq in *.
        unfold emax, prec. lia.
      - subst k e1. unfold shift_of. rewrite !fexp_eq in *.
        unfold emax, prec. lia. }
    unfold pack. destruct (Z.shiftr m2 (shift_of m2 e1)); try discriminate.
    apply Z.leb_le in Hsh. rewrite Hsh. discriminate.
Qed.

Lemma binary_normalize_valid z e sz :
  let r := binary_normalize prec emax z e sz in
  r <> S754_nan /\ valid_binary prec emax r = true.
Proof.
  destruct z as [|p|p]; simpl.
  - split; [discriminate|reflexivity].
  - destruct (binary_round_valid false p e) as (A & B & _). auto.
  - destruct (binary_round_valid true p e) as (A & B & _). auto.
Qed.

Lemma of_uint_is_fin x : 0 <= x < 2 ^ 32 -> is_fin (of_uint x) = true.
Proof.
  intros Hx. unfold of_uint. destruct x as [|p|p]; try lia; [reflexivity|].
  simpl binary_normalize.
  destruct (binary_round_valid false p 0) as (A & _ & C).
  assert (HD : Zpos (digits2_pos p) + 0 <= 127).
  { rewrite digits2_pos_log2.
    assert (Z.log2 (Zpos p) < 32) by (apply Z.log2_lt_pow2; lia). lia. }
  specialize (C HD).
  destruct (binary_round prec emax false p 0) as [s|s| |s m e];
    try reflexivity; [exfalso; apply (C s); reflexivity | congruence].
Qed.

Lemma ltb_zero_pos d :
  ltb zero d = true ->
  d = S754_infinity false \/ exists m e, d = S754_finite false m e.
Proof.
  destruct d as [s|[|]| |[|] m e]; simpl; try discriminate; eauto.
Qed.

Lemma div_not_nan x d :
  is_fin x = true -> ltb zero d = true -> div x d <> S754_nan.
Proof.
  intros Hx Hd. apply ltb_zero_pos in Hd as [->|(m & e & ->)];
    destruct x as [sx|sx| |sx mx ex]; try discriminate Hx; try discriminate.
  unfold div, SFdiv, SFdiv_core_binary.
  set (m' := match _ - _ with Z0 => Zpos mx | Zpos _ => _ | Zneg _ => 0 end).
  assert (Hm' : 0 <= m').
  { unfold m'. destruct (_ - _); try lia. apply Z.shiftl_nonneg. lia. }
  pose proof (Z.div_pos m' (Zpos m) Hm' ltac:(lia)) as Hq.
  unfold Z.div in Hq. destruct (Z.div_eucl m' (Zpos m)) as [q r].
  apply binary_round_aux_not_nan. exact Hq.
Qed.

Lemma mul_c60_not_nan r : r <> S754_nan -> mul r c60 <> S754_nan.
Proof.
  intros Hr. change c60 with (S754_finite false 15728640 (-18)).
  destruct r as [s|s| |s m e]; try discriminate; [congruence|].
  apply binary_round_aux_not_nan. lia.
Qed.

Lemma add_c30_valid p :
  p <> S754_nan ->
  add p c30 <> S754_nan /\ valid_binary prec emax (add p c30) = true.
Proof.
  intros Hp. change c30 with (S754_finite false 15728640 (-19)).
  destruct p as [s|s| |s m e]; try congruence;
    try (split; [discriminate|reflexivity]).
  apply binary_normalize_valid.
Qed.

Lemma greenSeconds_valid x y :
  0 <= x < 2 ^ 32 ->
  greenSeconds x y <> S754_nan /\
  valid_binary prec emax (greenSeconds x y) = true.
Proof.
  intros Hx. unfold greenSeconds.
  apply add_c30_valid, mul_c60_not_nan.
  destruct (ltb zero _) eqn:E; [|discriminate].
  apply div_not_nan; [apply of_uint_is_fin; exact Hx|exact E].
Qed.

Lemma valid_normal m e :
  bounded prec emax m e = true -> -149 < e -> 2 ^ 23 <= Zpos m < 2 ^ 24.
Proof.
  unfold bounded, canonical_mantissa. intros H He.
  apply andb_prop in H as [H _]. apply Z.eqb_eq in H.
  rewrite fexp_eq, digits2_pos_log2 in H.
  assert (Hl : Z.log2 (Zpos m) = 23) by lia.
  pose proof (Z.log2_spec (Zpos m) ltac:(lia)) as Hs. rewrite Hl in Hs.
  exact Hs.
Qed.

Lemma ltb_finite_pos m1 e1 m2 e2 :
  SFltb (S754_finite false m1 e1) (S754_finite false m2 e2)
  = match e1 ?= e2 with
    | Lt => true
    | Gt => false
    | Eq => Zpos m1 <? Zpos m2
    end.
Proof.
  unfold SFltb, SFcompare. destruct (e1 ?= e2); reflexivity.
Qed.

Lemma clampSec_range t :
  t <> S754_nan -> valid_binary prec emax t = true ->
  exists m e, clampSec t = S754_finite false m e /\ in_30_90 m e.
Proof.
  intros Hn Hv. unfold clampSec, ltb.
  change c30 with (S754_finite false 15728640 (-19)).
  change c90 with (S754_finite false 11796480 (-17)).
  assert (H30 : in_30_90 15728640 (-19)) by (unfold in_30_90; lia).
  assert (H90 : in_30_90 11796480 (-17)) by (unfold in_30_90; lia).
  destruct t as [s|[|]| |[|] m e]; try congruence;
    try (do 2 eexists; split; [reflexivity|assumption]).
  change (bounded prec emax m e = true) in Hv.
  assert (Hm : -149 < e -> 2 ^ 23 <= Zpos m < 2 ^ 24)
    by exact (valid_normal m e Hv).
  clear Hv Hn.
  destruct (SFltb (S754_finite false m e) _) eqn:L1.
  - do 2 eexists; split; [reflexivity|assumption].
  - destruct (SFltb _ (S754_finite false m e)) eqn:L2.
    + do 2 eexists; split; [reflexivity|assumption].
    + do 2 eexists; split; [reflexivity|].
      rewrite ltb_finite_pos in L1, L2.
      destruct (Z.compare_spec e (-19)), (Z.compare_spec (-17) e);
        try discriminate; try lia;
        rewrite ?Z.ltb_ge in *; unfold in_30_90; lia.
Qed.

(** Rounding a product to 24 bits and truncating it to an integer: the
    result is the truncation of the exact quotient or of its successor. *)
Lemma binary_round_aux_trunc M E l :
  0 < M -> 1 <= Z.log2 M - 23 -> -149 <= E + (Z.log2 M - 23) <= -1 ->
  exists m2,
    (m2 = Z.shiftr M (Z.log2 M - 23) \/ m2 = Z.shiftr M (Z.log2 M - 23) + 1) /\
    to_ulong (binary_round_aux prec emax false M E l)
    = Some (Z.shiftr m2 (- (E + (Z.log2 M - 23)))).
Proof.
  intros HM. set (n := Z.log2 M - 23). intros Hn HE.
  destruct (binary_round_aux_shape false M E l ltac:(lia)) as (m2 & Hm2 & Heq).
  assert (Hk : shift_of M E = n).
  { unfold shift_of. rewrite Zdigits2_log2, fexp_eq by assumption. lia. }
  rewrite Hk in Hm2, Heq. exists m2. split; [exact Hm2|]. rewrite Heq.
  destruct (Zdigits2_shiftr M n HM ltac:(lia)) as [Hp Hd].
  rewrite (Zdigits2_log2 M HM), (Zdigits2_log2 _ Hp) in Hd.
  pose proof (Z.log2_spec _ Hp) as Hs. replace (Z.log2 (Z.shiftr M n)) with 23 in Hs by lia.
  change (2 ^ 23) with 8388608 in Hs. change (2 ^ Z.succ 23) with 16777216 in Hs.
  set (e1 := E + n) in *.
  assert (Hbound : forall a k, 0 <= a < 2 ^ 32 -> 0 <= k -> Z.shiftr a k < 2 ^ 32).
  { intros a k Ha Hk0. rewrite Z.shiftr_div_pow2 by assumption.
    pose proof (Z.pow_pos_nonneg 2 k ltac:(lia) Hk0).
    apply Z.div_lt_upper_bound; [lia|]. nia. }
  destruct (Z_lt_ge_dec m2 16777216) as [Hlt|Hge].
  - (* no carry *)
    assert (Hl : Z.log2 m2 = 23).
    { apply Z.log2_unique; [lia|]. change (2 ^ 23) with 8388608.
      change (2 ^ Z.succ 23) with 16777216. lia. }
    assert (Hs2 : shift_of m2 e1 = 0).
    { unfold shift_of. rewrite Zdigits2_log2, fexp_eq by lia. lia. }
    rewrite Hs2, Z.shiftr_0_r, Z.add_0_r.
    destruct m2 as [|p|p]; try lia. unfold pack.
    replace (e1 <=? emax - prec) with true
      by (symmetry; apply Z.leb_le; unfold emax, prec; lia).
    unfold to_ulong.
    replace (Z.shiftl (Zpos p) e1) with (Z.shiftr (Zpos p) (- e1))
      by (unfold Z.shiftr; f_equal; lia).
    pose proof (Hbound (Zpos p) (- e1) ltac:(lia) ltac:(lia)) as Hb.
    apply Z.ltb_lt in Hb. rewrite Hb. reflexivity.
  - (* the rounded mantissa is 2^24 *)
    assert (Hm : m2 = 16777216) by lia. subst m2.
    assert (Hs2 : shift_of 16777216 e1 = 1).
    { unfold shift_of. rewrite fexp_eq. change (Zdigits2 16777216) with 25. lia. }
    rewrite Hs2. change (Z.shiftr 16777216 1) with 8388608. unfold pack.
    replace (e1 + 1 <=? emax - prec) with true
      by (symmetry; apply Z.leb_le; unfold emax, prec; lia).
    unfold to_ulong.
    replace (Z.shiftl 8388608 (e1 + 1)) with (Z.shiftr 16777216 (- e1)).
    + pose proof (Hbound 16777216 (- e1) ltac:(lia) ltac:(lia)) as Hb.
      apply Z.ltb_lt in Hb. rewrite Hb. reflexivity.
    + change 8388608 with (Z.shiftr 16777216 1).
      replace (Z.shiftl (Z.shiftr 16777216 1) (e1 + 1))
        with (Z.shiftr (Z.shiftr 16777216 1) (- e1 - 1))
        by (unfold Z.shiftr at 1; f_equal; lia).
      rewrite Z.shiftr_shiftr by lia. f_equal. lia.
Qed.

Lemma log2_product m :
  8388608 <= Zpos m < 16777216 ->
  Z.log2 (Zpos m * 16384000) = 46 \/ Z.log2 (Zpos m * 16384000) = 47.
Proof.
  intros Hm.
  destruct (Z_lt_ge_dec (Zpos m * 16384000) 140737488355328) as [H|H];
    [left|right]; apply Z.log2_unique; lia.
Qed.

Lemma trunc_bounds M n k lo hi m2 :
  0 < n -> 0 < k ->
  lo * k * n <= M -> M < (hi * k + k - 1) * n ->
  m2 = M / n \/ m2 = M / n + 1 ->
  lo <= m2 / k <= hi.
Proof.
  intros Hn Hk Hlo Hhi Hm2.
  assert (Hq : lo * k <= M / n /\ M / n < hi * k + k - 1)
    by (split; [apply Z.div_le_lower_bound|apply Z.div_lt_upper_bound]; lia).
  split; [apply Z.div_le_lower_bound|apply Z.lt_succ_r, Z.div_lt_upper_bound]; lia.
Qed.

Lemma mul_c1000_trunc m e :
  in_30_90 m e ->
  exists v, to_ulong (mul (S754_finite false m e) c1000) = Some v /\
            30000 <= v <= 90000.
Proof.
  intros [Hm He]. change (2 ^ 23) with 8388608 in Hm. change (2 ^ 24) with 16777216 in Hm.
  change c1000 with (S754_finite false 16384000 (-14)).
  unfold mul, SFmul. change (xorb false false) with false.
  replace (Zpos (m * 16384000)) with (Zpos m * 16384000) by lia.
  pose proof (log2_product m Hm) as Hlog.
  set (M := Zpos m * 16384000) in *.
  assert (Hrange : -19 <= e <= -17) by lia.
  pose proof (Z.log2_spec M ltac:(lia)) as Hspec.
  destruct (binary_round_aux_trunc M (e + -14) loc_Exact) as (m2 & Hm2 & Heq);
    try lia.
  rewrite Heq. eexists; split; [reflexivity|]. clear Heq.
  rewrite !Z.shiftr_div_pow2 in * by lia.
  assert (Hcases : e = -19 \/ e = -18 \/ e = -17) by lia.
  destruct Hlog as [Hl|Hl]; rewrite Hl in *;
    destruct Hcases as [E|[E|E]]; subst e.
  - apply (trunc_bounds M (2 ^ 23) (2 ^ 10)); try assumption; subst M; lia.
  - apply (trunc_bounds M (2 ^ 23) (2 ^ 9)); try assumption; subst M; lia.
  - apply (trunc_bounds M (2 ^ 23) (2 ^ 8)); try assumption; subst M; lia.
  - apply (trunc_bounds M (2 ^ 24) (2 ^ 9)); try assumption; subst M; lia.
  - apply (trunc_bounds M (2 ^ 24) (2 ^ 8)); try assumption; subst M; lia.
  - apply (trunc_bounds M (2 ^ 24) (2 ^ 7)); try assumption; subst M; lia.
Qed.

End F32Facts.

(** [computeGreenMs] is defined on all counts that fit an unsigned
    integer of up to 32 bits, and stays within 30 s .. 90 s. *)
Lemma computeGreenMs_range x y :
  0 <= x < 2 ^ 32 ->
  exists g, computeGreenMs x y = Some g /\ 30000 <= g <= 90000.
Proof.
  intros Hx. unfold computeGreenMs.
  destruct (greenSeconds_valid x y Hx) as [Hn Hv].
  destruct (clampSec_range _ Hn Hv) as (m & e & -> & Hr).
  exact (mul_c1000_trunc m e Hr).
Qed.

(** ** Emergency preemption *)

Lemma lights_AB p q s :
  roadA (setRoadLightsB q (setRoadLightsA p s)) = Some p /\
  roadB (setRoadLightsB q (setRoadLightsA p s)) = Some q.
Proof. destruct p, q; split; reflexivity. Qed.

Lemma triggerEmergency_lights road s :
  roadA (triggerEmergency road s) = Some (if road =? 1 then PHASE_GREEN else PHASE_RED) /\
  roadB (triggerEmergency road s) = Some (if road =? 1 then PHASE_RED else PHASE_GREEN).
Proof.
  unfold triggerEmergency. destruct (road =? 1); apply lights_AB.
Qed.

Lemma triggerEmergency_fields road s :
  let s' := triggerEmergency road s in
  sysState s' = STATE_EMERGENCY /\ emerActive s' = true /\
  emerRoad s' = road /\ emerStart s' = millis s /\ clock s' = clock s.
Proof.
  unfold triggerEmergency. destruct (road =? 1); simpl; auto.
Qed.

Lemma checkButton_pressed r1 r2 road s :
  pressed r1 r2 = true ->
  checkButton r1 r2 road s = triggerEmergency road (delay 10 s).
Proof.
  unfold pressed, checkButton. destruct r1, r2; simpl; try discriminate. reflexivity.
Qed.

Lemma checkButton_not_pressed r1 r2 road s :
  pressed r1 r2 = false ->
  checkButton r1 r2 road s = s \/ checkButton r1 r2 road s = delay 10 s.
Proof.
  unfold pressed, checkButton. destruct r1, r2; simpl; try discriminate; auto.
Qed.

(** The stale-[now] test: [now] was read before [delay(10)] and before
    [triggerEmergency] read the clock again. *)
Lemma stale_now_expired c d :
  0 < d <= 2 ^ 32 - EMERGENCY_GREEN_MS ->
  (EMERGENCY_GREEN_MS <=? wrap32 (wrap32 c - wrap32 (c + d))) = true.
Proof.
  intros Hd. apply Z.leb_le. unfold wrap32, EMERGENCY_GREEN_MS in *.
  rewrite <- Zminus_mod.
  replace (c - (c + d)) with (- d) by lia.
  change (2 ^ 32) with 4294967296 in *.
  replace (- d) with (4294967296 - d + (-1) * 4294967296) by lia.
  rewrite Z.mod_add by lia. rewrite Z.mod_small by lia. lia.
Qed.

Lemma checkButton_clock r1 r2 road s :
  clock (checkButton r1 r2 road s) = clock s \/
  clock (checkButton r1 r2 road s) = clock s + 10.
Proof.
  unfold checkButton. destruct r1, r2; simpl; auto.
  right. destruct (triggerEmergency_fields road (delay 10 s)) as (_ & _ & _ & _ & H).
  rewrite H. reflexivity.
Qed.

(** After the button checks of an iteration in which a signal was observed,
    the mode is [STATE_EMERGENCY], the emergency road is the one signalled
    (road B when both are) and [emerStart] lies 10 or 20 ms after the [now]
    of that iteration. *)
Lemma checkButtons_pressed inp s :
  pressedA inp || pressedB inp = true ->
  let s1 := checkButtons inp s in
  sysState s1 = STATE_EMERGENCY /\
  (emerStart s1 = wrap32 (clock s + 10) \/ emerStart s1 = wrap32 (clock s + 20)) /\
  emerActive s1 = true /\ emerRoad s1 = (if pressedB inp then 2 else 1).
Proof.
  intros H. unfold checkButtons. cbv zeta.
  set (sa := checkButton (readA1 inp) (readA2 inp) 1 s).
  destruct (pressedB inp) eqn:HB.
  - unfold pressedB in HB. rewrite (checkButton_pressed _ _ _ _ HB).
    destruct (triggerEmergency_fields 2 (delay 10 sa)) as (A & Act & Rd & B & _).
    split; [exact A|]. split; [|split; [exact Act|exact Rd]].
    rewrite B. unfold millis. simpl.
    destruct (checkButton_clock (readA1 inp) (readA2 inp) 1 s) as [E|E];
      fold sa in E; rewrite E; [left|right]; f_equal; lia.
  - rewrite orb_false_r in H. unfold pressedA in H.
    assert (Ea : sa = triggerEmergency 1 (delay 10 s))
      by (apply checkButton_pressed; exact H).
    destruct (triggerEmergency_fields 1 (delay 10 s)) as (A & Act & Rd & B & _).
    rewrite <- Ea in A, Act, Rd, B.
    destruct (checkButton_not_pressed _ _ 2 sa HB) as [E|E]; rewrite E;
      (split; [exact A|split; [left; exact B|split; [exact Act|exact Rd]]]).
Qed.

(** An iteration in which a signal is observed triggers the emergency and
    ends it again before it returns. *)
Lemma loop_pressed inp s :
  pressedA inp || pressedB inp = true ->
  loop inp s
  = Some (delay 1 (endEmergency (checkButtons inp (delay (idle inp) s)))).
Proof.
  intros H. unfold loop. cbv zeta.
  destruct (checkButtons_pressed inp (delay (idle inp) s) H) as (A & B & _).
  unfold stateMachine. rewrite A. unfold stepEmergency.
  replace (EMERGENCY_GREEN_MS <=? _) with true; [reflexivity|].
  symmetry. unfold millis.
  destruct B as [-> | ->]; apply stale_now_expired; unfold EMERGENCY_GREEN_MS; lia.
Qed.

Lemma endEmergency_fields s :
  let s' := delay 1 (endEmergency s) in
  sysState s' = STATE_COUNTING /\ emerActive s' = false /\ emerRoad s' = 0 /\
  countA s' = 0 /\ countB s' = 0 /\
  sA s' = SensorState_init /\ sB s' = SensorState_init /\
  cycleStartTime s' = millis s /\ lastSensorPoll s' = 0 /\
  greenDurationA s' = greenDurationA s /\ greenDurationB s' = greenDurationB s /\
  executingAfirst s' = executingAfirst s /\ execPhaseStart s' = execPhaseStart s /\
  roadA s' = roadA s /\ roadB s' = roadB s /\ clock s' = clock s + 1.
Proof. repeat split. Qed.

Lemma roadA_delay k s : roadA (delay k s) = roadA s.
Proof. reflexivity. Qed.

Lemma roadB_delay k s : roadB (delay k s) = roadB s.
Proof. reflexivity. Qed.

Lemma checkButtons_lights inp s :
  pressedA inp || pressedB inp = true ->
  let s1 := checkButtons inp s in
  roadA s1 = Some (if pressedB inp then PHASE_RED else PHASE_GREEN) /\
  roadB s1 = Some (if pressedB inp then PHASE_GREEN else PHASE_RED).
Proof.
  intros H. unfold checkButtons. cbv zeta.
  destruct (pressedB inp) eqn:HB.
  - unfold pressedB in HB. rewrite (checkButton_pressed _ _ _ _ HB).
    apply (triggerEmergency_lights 2).
  - rewrite orb_false_r in H. unfold pressedA in H.
    rewrite (checkButton_pressed _ _ 1 _ H).
    destruct (checkButton_not_pressed _ _ 2 (triggerEmergency 1 (delay 10 s)) HB)
      as [E|E]; rewrite E, ?roadA_delay, ?roadB_delay;
      apply (triggerEmergency_lights 1).
Qed.

(** The lights at the end of an iteration in which a signal is observed
    are those set by the button checks. *)
Lemma loop_pressed_lights inp s :
  pressedA inp || pressedB inp = true ->
  let s1 := checkButtons inp (delay (idle inp) s) in
  exists s', loop inp s = Some s' /\
    roadA s' = roadA s1 /\ roadB s' = roadB s1 /\
    roadA s' = Some (if pressedB inp then PHASE_RED else PHASE_GREEN) /\
    roadB s' = Some (if pressedB inp then PHASE_GREEN else PHASE_RED).
Proof.
  intros H s1.
  destruct (checkButtons_lights inp (delay (idle inp) s) H) as [LA LB].
  fold s1 in LA, LB.
  eexists. split; [apply loop_pressed; exact H|]. fold s1.
  destruct (endEmergency_fields s1)
    as (_&_&_&_&_&_&_&_&_&_&_&_&_&RA&RB&_).
  rewrite RA, RB. auto.
Qed.

(** C3. In any state, whatever the mode and the lights, an iteration in
    which an emergency signal is observed (both reads of a button [LOW])
    handles it before the [switch], on the state as the previous iteration
    left it: right after the check of road A's button road A is Green and
    road B Red; when road B's signal is observed, road B is Green and road A
    Red after the checks; the [switch] then runs the [STATE_EMERGENCY] case
    on the state the checks produced, so that the whole iteration is the
    button checks followed by that case and nothing of the interrupted mode's
    case runs; the lights stay as the checks set them, and at the end of the
    same iteration the requested road (road B, whose button is checked last,
    when both signals are observed) is Green and the other road Red. *)
Theorem emergency_preempts_within_tick inp s :
  pressedA inp || pressedB inp = true ->
  let s0 := delay (idle inp) s in
  let sa := checkButton (readA1 inp) (readA2 inp) 1 s0 in
  let s1 := checkButtons inp s0 in
  (pressedA inp = true -> roadA sa = Some PHASE_GREEN /\ roadB sa = Some PHASE_RED) /\
  (pressedB inp = true -> roadA s1 = Some PHASE_RED /\ roadB s1 = Some PHASE_GREEN) /\
  stateMachine inp (millis s0) s1 = Some (stepEmergency (millis s0) s1) /\
  loop inp s = Some (delay 1 (stepEmergency (millis s0) s1)) /\
  exists s', loop inp s = Some s' /\
    roadA s' = roadA s1 /\ roadB s' = roadB s1 /\
    roadA s' = Some (if pressedB inp then PHASE_RED else PHASE_GREEN) /\
    roadB s' = Some (if pressedB inp then PHASE_GREEN else PHASE_RED).
Proof.
  intros H s0 sa s1.
  destruct (checkButtons_lights inp s0 H) as [LA LB]. fold s1 in LA, LB.
  destruct (checkButtons_pressed inp s0 H) as (M & _). fold s1 in M.
  assert (SM : stateMachine inp (millis s0) s1 = Some (stepEmergency (millis s0) s1))
    by (unfold stateMachine; rewrite M; reflexivity).
  split; [|split; [|split; [|split]]].
  - intros HA. unfold sa, pressedA in *. rewrite (checkButton_pressed _ _ _ _ HA).
    apply (triggerEmergency_lights 1).
  - intros HB. rewrite HB in LA, LB. auto.
  - exact SM.
  - change (loop inp s) with (option_map (delay 1) (stateMachine inp (millis s0) s1)).
    rewrite SM. reflexivity.
  - exact (loop_pressed_lights inp s H).
Qed.

Lemma emergency_preempts_within_tick_witness :
  run [quietInput 120000; quietInput 40000] (setup power_on) = Some midGreenB /\
  sysState midGreenB = STATE_EXECUTING_TIMES /\
  roadA midGreenB = Some PHASE_RED /\ roadB midGreenB = Some PHASE_GREEN /\
  exists s', loop pressA midGreenB = Some s' /\
    roadA s' = Some PHASE_GREEN /\ roadB s' = Some PHASE_RED.
Proof.
  split; [vm_compute; reflexivity|]. split; [vm_compute; reflexivity|].
  split; [vm_compute; reflexivity|]. split; [vm_compute; reflexivity|].
  destruct (emergency_preempts_within_tick pressA midGreenB eq_refl)
    as (_ & _ & _ & _ & s' & L & _ & _ & RA & RB).
  exists s'. split; [exact L|]. split; [exact RA|exact RB].
Defined.

(** C10. An iteration in which an emergency signal is observed does not
    stay in the emergency mode: [now] was read before [delay(10)] and before
    [triggerEmergency] stored a later [emerStart], so the unsigned difference
    [now - emerStart] wraps around and exceeds [EMERGENCY_GREEN_MS]; the
    emergency is cleared and a new counting cycle starts in that same
    iteration, with and without the button held. *)
Theorem emergency_ends_in_triggering_tick inp s :
  pressedA inp || pressedB inp = true ->
  exists s', loop inp s = Some s' /\
    sysState s' = STATE_COUNTING /\ emerActive s' = false /\ emerRoad s' = 0 /\
    cycleStartTime s' = millis (checkButtons inp (delay (idle inp) s)).
Proof.
  intros H. eexists. split; [apply loop_pressed; exact H|].
  destruct (endEmergency_fields (checkButtons inp (delay (idle inp) s)))
    as (A&B&C&_&_&_&_&D&_).
  auto.
Qed.

Lemma emergency_ends_in_triggering_tick_witness :
  exists s', loop pressA (setup power_on) = Some s' /\
    sysState s' = STATE_COUNTING /\ emerActive s' = false.
Proof.
  destruct (emergency_ends_in_triggering_tick pressA (setup power_on) eq_refl)
    as (s' & L & A & B & _).
  exists s'. auto.
Defined.

(** C4, amended. There is no arbitration between emergency requests: in
    any state, whatever the mode and whether or not an emergency is recorded,
    an observed signal triggers the emergency of the road signalled (road B
    when both signals are observed): the emergency road, the start timestamp
    (10 or 20 ms after [now]) and the lights are overwritten, and the lights
    at the end of the iteration are those of that request.  When both
    signals are observed in one iteration, the check of road A's button makes
    the emergency of road A active, and the signal of road B, observed while
    it is active, replaces it: the emergency road, the start timestamp and
    the lights all change. *)
Theorem later_signal_replaces_active_emergency inp s :
  pressedA inp || pressedB inp = true ->
  let s0 := delay (idle inp) s in
  let sa := checkButton (readA1 inp) (readA2 inp) 1 s0 in
  let s1 := checkButtons inp s0 in
  emerRoad s1 = (if pressedB inp then 2 else 1) /\
  emerActive s1 = true /\ sysState s1 = STATE_EMERGENCY /\
  (emerStart s1 = wrap32 (clock s0 + 10) \/ emerStart s1 = wrap32 (clock s0 + 20)) /\
  roadA s1 = Some (if pressedB inp then PHASE_RED else PHASE_GREEN) /\
  roadB s1 = Some (if pressedB inp then PHASE_GREEN else PHASE_RED) /\
  (pressedA inp = true -> pressedB inp = true ->
   sysState sa = STATE_EMERGENCY /\ emerActive sa = true /\ emerRoad sa = 1 /\
   emerStart sa = wrap32 (clock s0 + 10) /\
   roadA sa = Some PHASE_GREEN /\ roadB sa = Some PHASE_RED /\
   emerRoad s1 = 2 /\ emerStart s1 = wrap32 (clock s0 + 20) /\
   roadA s1 = Some PHASE_RED /\ roadB s1 = Some PHASE_GREEN) /\
  exists s', loop inp s = Some s' /\
    roadA s' = Some (if pressedB inp then PHASE_RED else PHASE_GREEN) /\
    roadB s' = Some (if pressedB inp then PHASE_GREEN else PHASE_RED).
Proof.
  intros H s0 sa s1.
  destruct (checkButtons_pressed inp s0 H) as (M & St & Act & Rd).
  fold s1 in M, St, Act, Rd.
  destruct (checkButtons_lights inp s0 H) as [LA LB]. fold s1 in LA, LB.
  repeat (split; [assumption|]).
  split.
  - intros PA PB. unfold pressedA, pressedB in PA, PB.
    assert (Ea : sa = triggerEmergency 1 (delay 10 s0))
      by (apply checkButton_pressed; exact PA).
    assert (E1 : s1 = triggerEmergency 2 (delay 10 sa))
      by (apply checkButton_pressed; exact PB).
    destruct (triggerEmergency_fields 1 (delay 10 s0)) as (A1 & A2 & A3 & A4 & A5).
    destruct (triggerEmergency_lights 1 (delay 10 s0)) as [A6 A7].
    rewrite <- Ea in A1, A2, A3, A4, A5, A6, A7.
    destruct (triggerEmergency_fields 2 (delay 10 sa)) as (_ & _ & B3 & B4 & _).
    destruct (triggerEmergency_lights 2 (delay 10 sa)) as [B6 B7].
    rewrite <- E1 in B3, B4, B6, B7.
    split; [exact A1|]. split; [exact A2|]. split; [exact A3|].
    split; [exact A4|]. split; [exact A6|]. split; [exact A7|].
    split; [exact B3|]. split; [|split; [exact B6|exact B7]].
    rewrite B4. unfold millis. change (clock (delay 10 sa)) with (clock sa + 10).
    rewrite A5. change (clock (delay 10 s0)) with (clock s0 + 10).
    f_equal. lia.
  - destruct (loop_pressed_lights inp s H) as (s' & L & _ & _ & RA & RB).
    exists s'. auto.
Qed.

Lemma later_signal_replaces_active_emergency_witness :
  emerRoad (checkButton LOW LOW 1 (delay 0 (setup power_on))) = 1 /\
  emerRoad (checkButtons pressBoth (delay 0 (setup power_on))) = 2 /\
  exists s', loop pressBoth (setup power_on) = Some s' /\
    roadA s' = Some PHASE_RED /\ roadB s' = Some PHASE_GREEN.
Proof.
  destruct (later_signal_replaces_active_emergency pressBoth (setup power_on) eq_refl)
    as (_ & _ & _ & _ & _ & _ & B & s' & L & RA & RB).
  destruct (B eq_refl eq_refl) as (_ & _ & Ra & _ & _ & _ & Rb & _).
  split; [exact Ra|]. split; [exact Rb|].
  exists s'. split; [exact L|]. split; [exact RA|exact RB].
Defined.

(** C4, counterexample. From power-up, an iteration in which both buttons
    are down: after the check of road A's button the emergency of road A is
    active (mode [STATE_EMERGENCY], road A Green); the signal of road B,
    observed 10 ms later while it is active, changes the emergency road, the
    start timestamp and the lights, and road B is Green at the end of the
    iteration.  Likewise a signal for road B in the iteration after the one
    that gave road A its emergency green takes the green over. *)
Lemma second_signal_not_ignored :
  sysState (checkButton LOW LOW 1 (delay 0 (setup power_on))) = STATE_EMERGENCY /\
  emerActive (checkButton LOW LOW 1 (delay 0 (setup power_on))) = true /\
  emerRoad (checkButton LOW LOW 1 (delay 0 (setup power_on))) = 1 /\
  emerStart (checkButton LOW LOW 1 (delay 0 (setup power_on))) = 110 /\
  roadA (checkButton LOW LOW 1 (delay 0 (setup power_on))) = Some PHASE_GREEN /\
  roadB (checkButton LOW LOW 1 (delay 0 (setup power_on))) = Some PHASE_RED /\
  checkButtons pressBoth (delay 0 (setup power_on))
  = checkButton LOW LOW 2 (checkButton LOW LOW 1 (delay 0 (setup power_on))) /\
  emerRoad (checkButtons pressBoth (delay 0 (setup power_on))) = 2 /\
  emerStart (checkButtons pressBoth (delay 0 (setup power_on))) = 120 /\
  roadA (checkButtons pressBoth (delay 0 (setup power_on))) = Some PHASE_RED /\
  roadB (checkButtons pressBoth (delay 0 (setup power_on))) = Some PHASE_GREEN /\
  (exists s', loop pressBoth (setup power_on) = Some s' /\
     roadA s' = Some PHASE_RED /\ roadB s' = Some PHASE_GREEN) /\
  trace [pressA; pressB] (setup power_on)
  = [(STATE_COUNTING, Some PHASE_GREEN, Some PHASE_RED);
     (STATE_COUNTING, Some PHASE_RED, Some PHASE_GREEN)].
Proof.
  split; [vm_compute; reflexivity|]. split; [vm_compute; reflexivity|].
  split; [vm_compute; reflexivity|]. split; [vm_compute; reflexivity|].
  split; [vm_compute; reflexivity|]. split; [vm_compute; reflexivity|].
  split; [reflexivity|].
  split; [vm_compute; reflexivity|]. split; [vm_compute; reflexivity|].
  split; [vm_compute; reflexivity|]. split; [vm_compute; reflexivity|].
  split; [|vm_compute; reflexivity].
  eexists. split; [vm_compute; reflexivity|]. split; reflexivity.
Qed.

(** No signal observed: the button checks only let time pass. *)
Lemma checkButtons_not_pressed inp s :
  pressedA inp = false -> pressedB inp = false ->
  checkButtons inp s = s \/ checkButtons inp s = delay 10 s \/
  checkButtons inp s = delay 10 (delay 10 s).
Proof.
  intros HA HB. unfold checkButtons, pressedA, pressedB in *.
  destruct (checkButton_not_pressed _ _ 1 s HA) as [E|E]; rewrite E.
  - destruct (checkButton_not_pressed _ _ 2 s HB) as [F|F]; rewrite F; auto.
  - destruct (checkButton_not_pressed _ _ 2 (delay 10 s) HB) as [F|F];
      rewrite F; auto.
Qed.


Lemma stepEmergency_expired now s :
  (EMERGENCY_GREEN_MS <=? wrap32 (now - emerStart s)) = true ->
  stepEmergency now s = endEmergency s.
Proof. unfold stepEmergency. intros ->. reflexivity. Qed.

(** ** The execution window *)



Lemma wrap32_small z : 0 <= z < 2 ^ 32 -> wrap32 z = z.
Proof. apply Z.mod_small. Qed.

Lemma wrap32_sub_l a b : wrap32 (wrap32 a - b) = wrap32 (a - b).
Proof. unfold wrap32. apply Zminus_mod_idemp_l. Qed.


(** One evaluation of the [STATE_EXECUTING_TIMES] case against the
    specification's sequencer. *)
Lemma stepExecuting_spec now s :
  planFits s ->
  let e := wrap32 (now - execPhaseStart s) in
  let s' := stepExecuting now s in
  match spec_phaseAt e (greenDurationA s) (greenDurationB s) (executingAfirst s) 3000 with
  | Some (pa, pb) =>
      sysState s' = sysState s /\ samePlan s s' /\ clock s' = clock s /\
      (if e <? firstDuration s
       then roadA s' = roadA s /\ roadB s' = roadB s
       else roadA s' = Some pa /\ roadB s' = Some pb)
  | None => s' = resetCountingCycle s
  end.
Proof.
  intros (HA & HB & HT). unfold planTotal in HT. cbv zeta.
  unfold stepExecuting, spec_phaseAt, firstDuration, samePlan.
  set (e := wrap32 (now - execPhaseStart s)).
  destruct (executingAfirst s) eqn:Ef.
  - rewrite (wrap32_small (greenDurationA s + 3000)) by lia.
    rewrite (wrap32_small (greenDurationA s + 3000 + greenDurationB s)) by lia.
    rewrite (wrap32_small (greenDurationA s + 3000 + greenDurationB s + 3000)) by lia.
    destruct (e <? greenDurationA s); [repeat split; exact Ef|].
    destruct (e <? greenDurationA s + 3000); [repeat split; exact Ef|].
    destruct (e <? greenDurationA s + 3000 + greenDurationB s); [repeat split; exact Ef|].
    destruct (e <? greenDurationA s + 3000 + greenDurationB s + 3000);
      [repeat split; exact Ef|reflexivity].
  - rewrite (wrap32_small (greenDurationB s + 3000)) by lia.
    rewrite (wrap32_small (greenDurationB s + 3000 + greenDurationA s)) by lia.
    rewrite (wrap32_small (greenDurationB s + 3000 + greenDurationA s + 3000)) by lia.
    destruct (e <? greenDurationB s); [repeat split; exact Ef|].
    destruct (e <? greenDurationB s + 3000); [repeat split; exact Ef|].
    destruct (e <? greenDurationB s + 3000 + greenDurationA s); [repeat split; exact Ef|].
    destruct (e <? greenDurationB s + 3000 + greenDurationA s + 3000);
      [repeat split; exact Ef|reflexivity].
Qed.








Lemma spec_phaseAt_complete e dA dB first y :
  0 <= dA -> 0 <= dB -> 0 <= y -> dA + y + dB + y <= e ->
  spec_phaseAt e dA dB first y = None.
Proof.
  intros. unfold spec_phaseAt.
  destruct first;
    repeat match goal with
      | |- context [?a <? ?b] => destruct (Z.ltb_spec a b); try lia
      end; reflexivity.
Qed.



(** ** Building the plan *)

Lemma startExecutionPhase_eq s g :
  computeGreenMs (countA s) (countB s) = Some g ->
  startExecutionPhase s
  = Some (let s4 := set_execPhaseStart (millis s)
                      (set_sysState STATE_EXECUTING_TIMES
                         (set_executingAfirst (countB s <=? countA s)
                            (set_greenDurationB (wrap32 (CYCLE_TOTAL_MS - g))
                               (set_greenDurationA g s)))) in
          if countB s <=? countA s
          then setRoadLightsB PHASE_RED (setRoadLightsA PHASE_GREEN s4)
          else setRoadLightsB PHASE_GREEN (setRoadLightsA PHASE_RED s4)).
Proof. unfold startExecutionPhase. intros ->. reflexivity. Qed.

Lemma startExecutionPhase_fields s g :
  computeGreenMs (countA s) (countB s) = Some g ->
  exists s', startExecutionPhase s = Some s' /\
    greenDurationA s' = g /\ greenDurationB s' = wrap32 (CYCLE_TOTAL_MS - g) /\
    executingAfirst s' = (countB s <=? countA s) /\
    sysState s' = STATE_EXECUTING_TIMES /\ execPhaseStart s' = millis s /\
    countA s' = countA s /\ countB s' = countB s /\ clock s' = clock s /\
    firstGreen s'.
Proof.
  intros Hg. rewrite (startExecutionPhase_eq s g Hg). eexists.
  split; [reflexivity|]. cbv zeta. unfold firstGreen.
  destruct (countB s <=? countA s).
  - do 8 (split; [reflexivity|]). apply lights_AB.
  - do 8 (split; [reflexivity|]). apply lights_AB.
Qed.

Lemma startExecutionPhase_spec s :
  countsInRange s ->
  exists g s', computeGreenMs (countA s) (countB s) = Some g /\
    30000 <= g <= 90000 /\
    startExecutionPhase s = Some s' /\
    greenDurationA s' = g /\ greenDurationB s' = CYCLE_TOTAL_MS - g /\
    executingAfirst s' = (countB s <=? countA s) /\
    sysState s' = STATE_EXECUTING_TIMES /\ execPhaseStart s' = millis s /\
    countA s' = countA s /\ countB s' = countB s /\ clock s' = clock s /\
    firstGreen s'.
Proof.
  intros [HA HB].
  destruct (computeGreenMs_range (countA s) (countB s) ltac:(lia)) as (g & Hg & Hr).
  destruct (startExecutionPhase_fields s g Hg)
    as (s' & Hs & GA & GB & F & M & E & CA & CB & CL & FG).
  rewrite wrap32_small in GB by (unfold CYCLE_TOTAL_MS; lia).
  exists g, s'. repeat (split; [assumption|]). exact FG.
Qed.

Lemma startExecutionPhase_mode s s' :
  startExecutionPhase s = Some s' -> sysState s' = STATE_EXECUTING_TIMES.
Proof.
  intros H. destruct (computeGreenMs (countA s) (countB s)) as [g|] eqn:Eg.
  - destruct (startExecutionPhase_fields s g Eg) as (s'' & Hs & _ & _ & _ & M & _).
    rewrite H in Hs. injection Hs as ->. exact M.
  - unfold startExecutionPhase in H. rewrite Eg in H. discriminate H.
Qed.

Lemma debounce_counter_range p now ss c :
  0 <= c < 2 ^ 16 -> 0 <= snd (debounce p now ss c) < 2 ^ 16.
Proof.
  intros Hc. unfold debounce.
  repeat match goal with
    | |- context [if ?b then _ else _] => destruct b
    end; simpl; try exact Hc; apply Z.mod_pos_bound; lia.
Qed.

(** The sensor polling of the [STATE_COUNTING] case keeps the mode, the
    start of the cycle and the lights, and keeps the counters in range. *)
Lemma stepCounting_expired inp now s :
  countsInRange s ->
  (CYCLE_TOTAL_MS <=? wrap32 (now - cycleStartTime s)) = true ->
  exists sp, stepCounting inp now s = startExecutionPhase sp /\ countsInRange sp.
Proof.
  intros [HA HB] Hexp. unfold stepCounting.
  destruct (SENSOR_POLL_MS <=? wrap32 (now - lastSensorPoll s)).
  - unfold updateSensor, measureDistanceCM.
    set (s1 := delay (latA inp) (set_lastSensorPoll now s)).
    destruct (debounce (isPresentAt _) (millis s1) (sA (set_lastSensorPoll now s))
                (countA (set_lastSensorPoll now s))) as [ssa ca] eqn:Da.
    set (s2 := set_countA ca (set_sA ssa s1)).
    set (s3 := delay (latB inp) s2).
    destruct (debounce (isPresentAt _) (millis s3) (sB s2) (countB s2))
      as [ssb cb] eqn:Db.
    eexists. split.
    + replace (cycleStartTime (set_countB cb (set_sB ssb s3))) with (cycleStartTime s)
        by reflexivity.
      rewrite Hexp. reflexivity.
    + split.
      * change (countA (set_countB cb (set_sB ssb s3))) with ca.
        pose proof (debounce_counter_range (isPresentAt
          (if to_long (echoA inp) =? 0 then -1 else Z.quot (to_long (echoA inp)) 58))
          (millis s1) (sA (set_lastSensorPoll now s)) _ HA) as H.
        change (countA (set_lastSensorPoll now s)) with (countA s) in Da.
        rewrite Da in H. exact H.
      * change (countB (set_countB cb (set_sB ssb s3))) with cb.
        pose proof (debounce_counter_range (isPresentAt
          (if to_long (echoB inp) =? 0 then -1 else Z.quot (to_long (echoB inp)) 58))
          (millis s3) (sB s2) _ HB) as H.
        change (countB s2) with (countB s) in Db.
        rewrite Db in H. exact H.
  - exists s. rewrite Hexp. split; [reflexivity|split; assumption].
Qed.

Lemma offset_one c : wrap32 (c + 1 - wrap32 c) = 1.
Proof.
  unfold wrap32. rewrite Zminus_mod_idemp_r.
  replace (c + 1 - c) with 1 by lia. reflexivity.
Qed.

(** The iteration that ends a counting window leaves the controller at the
    start of an execution window. *)
Lemma counting_window_end inp s :
  sysState s = STATE_COUNTING ->
  pressedA inp = false -> pressedB inp = false ->
  countsInRange s ->
  CYCLE_TOTAL_MS <= wrap32 (millis (delay (idle inp) s) - cycleStartTime s) ->
  exists s', loop inp s = Some s' /\
    sysState s' = STATE_EXECUTING_TIMES /\
    executingAfirst s' = (countB s' <=? countA s') /\
    firstGreen s' /\ planFits s' /\ offset s' = 1.
Proof.
  intros M HA HB Hc Hexp. apply Z.leb_le in Hexp. unfold loop. cbv zeta.
  set (s0 := delay (idle inp) s) in *.
  assert (Hs1 : forall s1, sysState s1 = STATE_COUNTING -> countsInRange s1 ->
            cycleStartTime s1 = cycleStartTime s ->
            exists s', option_map (delay 1) (stateMachine inp (millis s0) s1) = Some s' /\
              sysState s' = STATE_EXECUTING_TIMES /\
              executingAfirst s' = (countB s' <=? countA s') /\
              firstGreen s' /\ planFits s' /\ offset s' = 1).
  { intros s1 M1 C1 E1. unfold stateMachine. rewrite M1.
    destruct (stepCounting_expired inp (millis s0) s1 C1) as (sp & -> & Cp);
      [rewrite E1; exact Hexp|].
    destruct (startExecutionPhase_spec sp Cp)
      as (g & s' & _ & Hg & -> & GA & GB & F & Me & Es & Ca & Cb & Cl & FG).
    exists (delay 1 s'). split; [reflexivity|].
    split; [exact Me|]. split; [|split; [exact FG|split]].
    - change (countA (delay 1 s')) with (countA s').
      change (countB (delay 1 s')) with (countB s').
      change (executingAfirst (delay 1 s')) with (executingAfirst s').
      rewrite Ca, Cb. exact F.
    - unfold planFits, planTotal.
      change (greenDurationA (delay 1 s')) with (greenDurationA s').
      change (greenDurationB (delay 1 s')) with (greenDurationB s').
      rewrite GA, GB. unfold CYCLE_TOTAL_MS. lia.
    - unfold offset.
      change (clock (delay 1 s')) with (clock s' + 1).
      change (execPhaseStart (delay 1 s')) with (execPhaseStart s').
      rewrite Cl, Es. apply offset_one. }
  destruct (checkButtons_not_pressed inp s0 HA HB) as [E|[E|E]]; rewrite E;
    apply Hs1; try exact M; try exact Hc; reflexivity.
Qed.

(** ** The emergency mode between iterations *)

Lemma stepExecuting_mode now s :
  sysState s = STATE_EXECUTING_TIMES ->
  sysState (stepExecuting now s) <> STATE_EMERGENCY.
Proof.
  intros M. unfold stepExecuting.
  repeat match goal with
    | |- context [if ?b then _ else _] => destruct b
    end;
    first [ rewrite M; discriminate | discriminate
          | change (sysState s <> STATE_EMERGENCY); rewrite M; discriminate ].
Qed.

Lemma stepCounting_mode inp now s s' :
  sysState s = STATE_COUNTING ->
  stepCounting inp now s = Some s' -> sysState s' <> STATE_EMERGENCY.
Proof.
  intros M. unfold stepCounting.
  set (sp := if SENSOR_POLL_MS <=? wrap32 (now - lastSensorPoll s) then _ else s).
  assert (Mp : sysState sp = STATE_COUNTING).
  { unfold sp. destruct (SENSOR_POLL_MS <=? _); [|exact M].
    unfold updateSensor, measureDistanceCM.
    repeat match goal with
      | |- context [debounce ?a ?b ?c ?d] => destruct (debounce a b c d)
      end. exact M. }
  clearbody sp. destruct (CYCLE_TOTAL_MS <=? _).
  - intros H. rewrite (startExecutionPhase_mode sp s' H). discriminate.
  - intros [= <-]. rewrite Mp. discriminate.
Qed.

(** No iteration that starts outside the emergency mode ends in it. *)
Lemma loop_leaves_emergency inp s s' :
  sysState s <> STATE_EMERGENCY -> loop inp s = Some s' ->
  sysState s' <> STATE_EMERGENCY.
Proof.
  intros M L.
  destruct (pressedA inp || pressedB inp) eqn:P.
  - rewrite (loop_pressed inp s P) in L. injection L as <-. discriminate.
  - apply orb_false_elim in P as [PA PB].
    unfold loop in L. cbv zeta in L.
    set (s0 := delay (idle inp) s) in *.
    assert (H : forall s1, sysState s1 = sysState s ->
              option_map (delay 1) (stateMachine inp (millis s0) s1) = Some s' ->
              sysState s' <> STATE_EMERGENCY).
    { intros s1 M1 H. unfold stateMachine in H. rewrite M1 in H.
      destruct (sysState s) eqn:Ms; [| |congruence].
      - destruct (stepCounting inp (millis s0) s1) as [s2|] eqn:E; [|discriminate].
        injection H as <-. apply (stepCounting_mode inp (millis s0) s1 s2 M1 E).
      - injection H as <-. apply (stepExecuting_mode (millis s0) s1 M1). }
    destruct (checkButtons_not_pressed inp s0 PA PB) as [E|[E|E]];
      rewrite E in L;
      [apply (H s0 eq_refl L) | apply (H (delay 10 s0) eq_refl L)
      |apply (H (delay 10 (delay 10 s0)) eq_refl L)].
Qed.

(** From power-up on, the emergency mode is never observed between two
    iterations of [loop]. *)
Lemma emergency_mode_never_persists inps : forall s s',
  sysState s <> STATE_EMERGENCY -> run inps s = Some s' ->
  sysState s' <> STATE_EMERGENCY.
Proof.
  induction inps as [|inp rest IH]; intros s s' M R; simpl in R.
  - injection R as <-. exact M.
  - destruct (loop inp s) as [s1|] eqn:L; [|discriminate].
    apply (IH s1 s' (loop_leaves_emergency inp s s1 M L) R).
Qed.

(** ** Presence detection *)

Lemma debounce_stable p now ss c :
  present ss = p -> debounce p now ss c = (ss, c).
Proof. intros <-. unfold debounce. rewrite Bool.eqb_reflx. reflexivity. Qed.

Lemma debounce_too_early (p : bool) now ss c :
  wrap32 (now - lastChange ss)
    < (if p then PRESENCE_DEBOUNCE_MS else ABSENCE_DEBOUNCE_MS) ->
  debounce p now ss c = (ss, c).
Proof.
  intros H. unfold debounce. apply Z.leb_gt in H. rewrite H.
  destruct (negb _); reflexivity.
Qed.

Lemma debounce_arrival now ss c :
  present ss = false -> clearsPresence ss (true, now) ->
  debounce true now ss c = (mkSensor true now true, c).
Proof.
  unfold clearsPresence, debounce. simpl. intros -> H.
  apply Z.leb_le in H. rewrite H. reflexivity.
Qed.

Lemma debounce_departure now ss c :
  present ss = true -> waitingForAbsence ss = true ->
  clearsAbsence ss (false, now) ->
  debounce false now ss c = (mkSensor false now false, wrap16 (c + 1)).
Proof.
  unfold clearsAbsence, debounce. simpl. intros -> -> H.
  apply Z.leb_le in H. rewrite H. reflexivity.
Qed.

Lemma feed_app P Q ss c :
  feed (P ++ Q) ss c = feed Q (fst (feed P ss c)) (snd (feed P ss c)).
Proof.
  revert ss c. induction P as [|[p now] P IH]; intros ss c; simpl; [reflexivity|].
  destruct (debounce p now ss c) as [ss' c']. apply IH.
Qed.

Lemma passEvents_app P Q ss c :
  passEvents (P ++ Q) ss c
  = (passEvents P ss c + passEvents Q (fst (feed P ss c)) (snd (feed P ss c)))%nat.
Proof.
  revert ss c. induction P as [|[p now] P IH]; intros ss c; simpl; [reflexivity|].
  destruct (debounce p now ss c) as [ss' c']. rewrite IH. lia.
Qed.

(** A run of polls that agree with the recorded presence changes nothing. *)
Lemma feed_stable b P : forall ss c,
  Forall (fun r => fst r = b) P -> present ss = b ->
  feed P ss c = (ss, c) /\ passEvents P ss c = O.
Proof.
  induction P as [|[p now] P IH]; intros ss c HP Hb; simpl; [auto|].
  inversion HP as [|? ? Hp HP']; subst. simpl in Hp. subst p.
  rewrite debounce_stable by reflexivity. rewrite Z.eqb_refl.
  apply IH; [exact HP'|reflexivity].
Qed.

Lemma present_run P : forall ss c,
  Forall (fun r => fst r = true) P -> present ss = false ->
  Exists (clearsPresence ss) P ->
  present (fst (feed P ss c)) = true /\
  waitingForAbsence (fst (feed P ss c)) = true /\
  snd (feed P ss c) = c /\ passEvents P ss c = O.
Proof.
  induction P as [|[p now] P IH]; intros ss c HP Hb HE; [inversion HE|].
  inversion HP as [|? ? Hp HP']; subst. simpl in Hp. subst p. simpl.
  destruct (Z_le_gt_dec PRESENCE_DEBOUNCE_MS (wrap32 (now - lastChange ss))) as [Ha|Ha].
  - rewrite (debounce_arrival now ss c Hb Ha). rewrite Z.eqb_refl.
    destruct (feed_stable true P (mkSensor true now true) c HP' eq_refl) as [-> ->].
    auto.
  - rewrite debounce_too_early by (simpl; lia). rewrite Z.eqb_refl.
    apply IH; [exact HP'|exact Hb|].
    inversion HE as [? ? H|? ? H]; subst; [|exact H].
    unfold clearsPresence in H. simpl in H. lia.
Qed.

Lemma wrap16_succ_neq c : 0 <= c < 2 ^ 16 -> (wrap16 (c + 1) =? c) = false.
Proof.
  intros Hc. apply Z.eqb_neq. unfold wrap16.
  destruct (Z.eq_dec c (2 ^ 16 - 1)) as [->|Hn]; [vm_compute; discriminate|].
  rewrite Z.mod_small; lia.
Qed.

Lemma absent_run Q : forall ss c,
  0 <= c < 2 ^ 16 ->
  Forall (fun r => fst r = false) Q ->
  present ss = true -> waitingForAbsence ss = true ->
  Exists (clearsAbsence ss) Q ->
  present (fst (feed Q ss c)) = false /\
  waitingForAbsence (fst (feed Q ss c)) = false /\
  snd (feed Q ss c) = wrap16 (c + 1) /\ passEvents Q ss c = 1%nat.
Proof.
  induction Q as [|[p now] Q IH]; intros ss c Hc HQ Hb Hw HE; [inversion HE|].
  inversion HQ as [|? ? Hp HQ']; subst. simpl in Hp. subst p. simpl.
  destruct (Z_le_gt_dec ABSENCE_DEBOUNCE_MS (wrap32 (now - lastChange ss))) as [Ha|Ha].
  - rewrite (debounce_departure now ss c Hb Hw Ha). rewrite (wrap16_succ_neq c Hc).
    destruct (feed_stable false Q (mkSensor false now false) (wrap16 (c + 1)) HQ' eq_refl)
      as [-> ->].
    auto.
  - rewrite debounce_too_early by (simpl; lia). rewrite Z.eqb_refl.
    apply IH; try assumption.
    inversion HE as [? ? H|? ? H]; subst; [|exact H].
    unfold clearsAbsence in H. simpl in H. lia.
Qed.

(** C8. An accepted present-to-absent transition with [waitingForAbsence]
    set increments the counter by one (modulo 2^16) and clears
    [waitingForAbsence]; and a presence episode, any number of present polls
    followed by any number of absent polls, starting from an absent sensor
    and with a poll in each run that clears the debounce interval, produces
    exactly one increment. *)
Theorem presence_episode_counted_once :
  (forall now ss c,
     present ss = true -> waitingForAbsence ss = true ->
     clearsAbsence ss (false, now) ->
     debounce false now ss c = (mkSensor false now false, wrap16 (c + 1))) /\
  (forall P Q ss c,
     0 <= c < 2 ^ 16 -> present ss = false ->
     Forall (fun r => fst r = true) P -> Forall (fun r => fst r = false) Q ->
     Exists (clearsPresence ss) P ->
     Exists (clearsAbsence (fst (feed P ss c))) Q ->
     passEvents (P ++ Q) ss c = 1%nat /\
     snd (feed (P ++ Q) ss c) = wrap16 (c + 1) /\
     present (fst (feed (P ++ Q) ss c)) = false /\
     waitingForAbsence (fst (feed (P ++ Q) ss c)) = false).
Proof.
  split; [exact debounce_departure|].
  intros P Q ss c Hc Hb HP HQ EP EQ.
  destruct (present_run P ss c HP Hb EP) as (P1 & P2 & P3 & P4).
  rewrite passEvents_app, feed_app, P4.
  rewrite P3 in *.
  destruct (absent_run Q (fst (feed P ss c)) c Hc HQ P1 P2 EQ) as (Q1 & Q2 & Q3 & Q4).
  rewrite Q4. auto.
Qed.

Lemma presence_episode_counted_once_witness :
  passEvents ([(true, 100); (true, 160); (true, 220)] ++ [(false, 280); (false, 340)])
    SensorState_init 0 = 1%nat /\
  snd (feed ([(true, 100); (true, 160); (true, 220)] ++ [(false, 280); (false, 340)])
         SensorState_init 0) = 1.
Proof.
  destruct (proj2 presence_episode_counted_once
              [(true, 100); (true, 160); (true, 220)] [(false, 280); (false, 340)]
              SensorState_init 0) as (A & B & _).
  - lia.
  - reflexivity.
  - repeat constructor.
  - repeat constructor.
  - apply Exists_cons_hd. vm_compute. discriminate.
  - apply Exists_cons_tl, Exists_cons_hd. vm_compute. discriminate.
  - split; [exact A|exact B].
Defined.

(** C9. A timed-out measurement ([pulseIn] returning 0) yields the
    distance -1, which is not a presence; [updateSensor] then behaves exactly
    as for an absent reading, with a single measurement per call, and never
    turns presence on. *)
Theorem sensor_timeout_reads_absent :
  (forall lat s, fst (measureDistanceCM 0 lat s) = -1) /\
  isPresentAt (-1) = false /\
  (forall ss c lat s,
     updateSensor ss c 0 lat s
     = (debounce false (millis (delay lat s)) ss c, delay lat s)) /\
  (forall ss c lat s,
     present (fst (fst (updateSensor ss c 0 lat s)))
     = present ss
       && negb (ABSENCE_DEBOUNCE_MS <=? wrap32 (millis (delay lat s) - lastChange ss))).
Proof.
  split; [reflexivity|]. split; [reflexivity|]. split; [reflexivity|].
  intros ss c lat s. change (updateSensor ss c 0 lat s)
    with (debounce false (millis (delay lat s)) ss c, delay lat s).
  cbn [fst]. unfold debounce.
  destruct (present ss) eqn:E; cbn [Bool.eqb negb andb fst]; [|exact E].
  destruct (ABSENCE_DEBOUNCE_MS <=? _); [|exact E].
  destruct (waitingForAbsence ss); reflexivity.
Qed.

(** ** The allocation *)

Lemma all_from_spec f fuel : forall z,
  all_from f z fuel = true ->
  forall k, z <= k < z + Z.of_nat fuel -> f k = true.
Proof.
  induction fuel as [|fuel IH]; intros z H k Hk; [lia|].
  simpl in H. destruct (f z) eqn:E; [|discriminate].
  destruct (Z.eq_dec k z) as [->|Hn]; [exact E|].
  apply (IH (z + 1) H). lia.
Qed.

Lemma equalCounts_checked : all_from equalCountsOK 0 (Z.to_nat 65536) = true.
Proof. vm_compute. reflexivity. Qed.

(** C1. For all counts [x], [y] that fit an unsigned integer (16 bits on
    the Arduino UNO; the statement covers up to 32 bits),
    [computeGreenMs x y] is defined and lies between 30 000 ms and
    90 000 ms; when the plan is built from these counts, [greenDurationA] is
    that value and [greenDurationB] is [CYCLE_TOTAL_MS - greenDurationA], so
    the two durations sum to exactly 120 000 ms, clamped or not. *)
Theorem green_split_clamped_and_exact x y :
  0 <= x < 2 ^ 32 -> 0 <= y < 2 ^ 32 ->
  exists a, computeGreenMs x y = Some a /\ 30000 <= a <= 90000 /\
    forall s, countA s = x -> countB s = y ->
      exists s', startExecutionPhase s = Some s' /\
        greenDurationA s' = a /\ greenDurationB s' = CYCLE_TOTAL_MS - a /\
        30000 <= greenDurationA s' <= 90000 /\
        greenDurationA s' + greenDurationB s' = 120000.
Proof.
  intros Hx _.
  destruct (computeGreenMs_range x y Hx) as (a & Ha & Hr).
  exists a. split; [exact Ha|]. split; [exact Hr|].
  intros s HA HB. rewrite <- HA, <- HB in Ha.
  destruct (startExecutionPhase_fields s a Ha) as (s' & Hs & GA & GB & _).
  rewrite wrap32_small in GB by (unfold CYCLE_TOTAL_MS; lia).
  exists s'. rewrite GA, GB. unfold CYCLE_TOTAL_MS.
  repeat split; try assumption; lia.
Qed.

Lemma green_split_clamped_and_exact_witness :
  exists s', startExecutionPhase (withCounts 12 5) = Some s' /\
    30000 <= greenDurationA s' <= 90000 /\
    greenDurationA s' + greenDurationB s' = 120000.
Proof.
  destruct (green_split_clamped_and_exact 12 5) as (a & _ & _ & H); [lia|lia|].
  destruct (H (withCounts 12 5) eq_refl eq_refl) as (s' & A & _ & _ & B & C).
  exists s'. auto.
Defined.

(** C2, counterexample. With no vehicle on either road the ratio is 0, not
    0.5: road A is allocated 30 s and road B 90 s. *)
Lemma equal_counts_zero_split_uneven :
  computeGreenMs 0 0 = Some 30000 /\
  exists s', startExecutionPhase (withCounts 0 0) = Some s' /\
    greenDurationA s' = 30000 /\ greenDurationB s' = 90000 /\
    greenDurationA s' <> greenDurationB s'.
Proof.
  split; [vm_compute; reflexivity|].
  eexists. split; [vm_compute; reflexivity|].
  split; [reflexivity|]. split; [reflexivity|]. discriminate.
Qed.

(** C2, amended. With the same count [n] on both roads the two durations
    sum to 120 s; for [n = 0] road A gets 30 s and road B 90 s; for every
    [n >= 1] road A gets between 59.85 s and 60 s and road B between 60 s
    and 60.15 s. *)
Theorem equal_counts_split s n :
  countA s = n -> countB s = n -> 0 <= n < 2 ^ 16 ->
  exists s', startExecutionPhase s = Some s' /\
    greenDurationA s' + greenDurationB s' = 120000 /\
    (n = 0 -> greenDurationA s' = 30000 /\ greenDurationB s' = 90000) /\
    (1 <= n -> 59850 <= greenDurationA s' <= 60000 /\
               60000 <= greenDurationB s' <= 60150).
Proof.
  intros HA HB Hn.
  assert (Hc : countsInRange s) by (unfold countsInRange; rewrite HA, HB; lia).
  destruct (startExecutionPhase_spec s Hc)
    as (g & s' & Hg & Hr & Hs & GA & GB & _).
  rewrite HA, HB in Hg.
  pose proof (all_from_spec equalCountsOK _ 0 equalCounts_checked n) as Hchk.
  rewrite Z2Nat.id in Hchk by lia. specialize (Hchk ltac:(lia)).
  unfold equalCountsOK in Hchk. rewrite Hg in Hchk.
  exists s'. rewrite GA, GB. unfold CYCLE_TOTAL_MS.
  split; [exact Hs|]. split; [lia|].
  destruct (Z.eqb_spec n 0) as [E|E].
  - apply Z.eqb_eq in Hchk. lia.
  - apply andb_prop in Hchk as [L U]. apply Z.leb_le in L, U. lia.
Qed.

Lemma equal_counts_split_witness :
  exists s', startExecutionPhase (withCounts 7 7) = Some s' /\
    59850 <= greenDurationA s' <= 60000.
Proof.
  destruct (equal_counts_split (withCounts 7 7) 7) as (s' & A & _ & _ & B).
  - reflexivity.
  - reflexivity.
  - lia.
  - exists s'. split; [exact A|]. apply B. lia.
Defined.

(** ** Worked examples *)


(** The segments of the plan road A first, 50 s, 70 s: the sequencer of
    the specification, and single iterations of [loop] sampling the clock at
    the same instants. *)
Lemma plan_50_70_segments :
  map (fun e => spec_phaseAt e 50000 70000 true 3000)
      [0; 49999; 50000; 52999; 53000; 122999; 123000; 125999; 126000]
  = [Some (PHASE_GREEN, PHASE_RED); Some (PHASE_GREEN, PHASE_RED);
     Some (PHASE_YELLOW, PHASE_RED); Some (PHASE_YELLOW, PHASE_RED);
     Some (PHASE_RED, PHASE_GREEN); Some (PHASE_RED, PHASE_GREEN);
     Some (PHASE_RED, PHASE_YELLOW); Some (PHASE_RED, PHASE_YELLOW); None] /\
  map (fun e => option_map (fun s => (sysState s, roadA s, roadB s))
                  (loop (quietInput e) execExample))
      [0; 49999; 50000; 52999; 53000; 122999; 123000; 125999; 126000]
  = [Some (STATE_EXECUTING_TIMES, Some PHASE_GREEN, Some PHASE_RED);
     Some (STATE_EXECUTING_TIMES, Some PHASE_GREEN, Some PHASE_RED);
     Some (STATE_EXECUTING_TIMES, Some PHASE_YELLOW, Some PHASE_RED);
     Some (STATE_EXECUTING_TIMES, Some PHASE_YELLOW, Some PHASE_RED);
     Some (STATE_EXECUTING_TIMES, Some PHASE_RED, Some PHASE_GREEN);
     Some (STATE_EXECUTING_TIMES, Some PHASE_RED, Some PHASE_GREEN);
     Some (STATE_EXECUTING_TIMES, Some PHASE_RED, Some PHASE_YELLOW);
     Some (STATE_EXECUTING_TIMES, Some PHASE_RED, Some PHASE_YELLOW);
     Some (STATE_COUNTING, Some PHASE_GREEN, Some PHASE_RED)].
Proof. split; vm_compute; reflexivity. Qed.

Lemma busier_road_example :
  option_map (fun s => (executingAfirst s, observe s))
    (loop (quietInput 120000) (withCounts 4 9))
  = Some (false, (STATE_EXECUTING_TIMES, Some PHASE_RED, Some PHASE_GREEN)) /\
  option_map (fun s => (executingAfirst s, observe s))
    (loop (quietInput 120000) (withCounts 6 6))
  = Some (true, (STATE_EXECUTING_TIMES, Some PHASE_GREEN, Some PHASE_RED)).
Proof. split; vm_compute; reflexivity. Qed.

(** Iterations that sample the clock exactly on the segment boundaries of
    the plan A first, 50 s, 70 s. *)
Lemma plan_50_70_trace :
  trace (map quietInput [0; 49998; 0; 2998; 0; 69998; 0; 2998; 0]) execExample
  = [(STATE_EXECUTING_TIMES, Some PHASE_GREEN, Some PHASE_RED);
     (STATE_EXECUTING_TIMES, Some PHASE_GREEN, Some PHASE_RED);
     (STATE_EXECUTING_TIMES, Some PHASE_YELLOW, Some PHASE_RED);
     (STATE_EXECUTING_TIMES, Some PHASE_YELLOW, Some PHASE_RED);
     (STATE_EXECUTING_TIMES, Some PHASE_RED, Some PHASE_GREEN);
     (STATE_EXECUTING_TIMES, Some PHASE_RED, Some PHASE_GREEN);
     (STATE_EXECUTING_TIMES, Some PHASE_RED, Some PHASE_YELLOW);
     (STATE_EXECUTING_TIMES, Some PHASE_RED, Some PHASE_YELLOW);
     (STATE_COUNTING, Some PHASE_RED, Some PHASE_YELLOW)].
Proof. vm_compute. reflexivity. Qed.

(** A button held down for three iterations, then released. *)
Lemma held_button_trace :
  trace [pressA; pressA; pressA; quietInput 0] (setup power_on)
  = [(STATE_COUNTING, Some PHASE_GREEN, Some PHASE_RED);
     (STATE_COUNTING, Some PHASE_GREEN, Some PHASE_RED);
     (STATE_COUNTING, Some PHASE_GREEN, Some PHASE_RED);
     (STATE_COUNTING, Some PHASE_GREEN, Some PHASE_RED)].
Proof. vm_compute. reflexivity. Qed.

(** * Further properties *)

(** ** Iterations in which no signal is observed *)

Lemma samePlanAndLights_refl s : samePlanAndLights s s.
Proof. repeat split. Qed.

Lemma samePlanAndLights_delay k s : samePlanAndLights s (delay k s).
Proof. repeat split. Qed.

Lemma samePlanAndLights_trans s1 s2 s3 :
  samePlanAndLights s1 s2 -> samePlanAndLights s2 s3 -> samePlanAndLights s1 s3.
Proof.
  unfold samePlanAndLights.
  intros (A1&A2&A3&A4&A5&A6&A7&A8&A9&A10) (B1&B2&B3&B4&B5&B6&B7&B8&B9&B10).
  repeat split; congruence.
Qed.

(** The sensor polling of the [STATE_COUNTING] case, whatever the state of
    the window: when the poll interval has elapsed each sensor takes one
    [debounce] step, road A on the clock after its measurement and road B
    after both; otherwise nothing is written. *)
Lemma stepCounting_poll inp now s :
  exists sp,
    stepCounting inp now s
    = (if CYCLE_TOTAL_MS <=? wrap32 (now - cycleStartTime s)
       then startExecutionPhase sp else Some sp) /\
    samePlanAndLights s sp /\
    (countsInRange s -> countsInRange sp) /\
    (if SENSOR_POLL_MS <=? wrap32 (now - lastSensorPoll s)
     then (sA sp, countA sp) = pollA inp s /\ (sB sp, countB sp) = pollB inp s /\
          lastSensorPoll sp = now /\ clock sp = clock s + latA inp + latB inp
     else sp = s).
Proof.
  unfold stepCounting, pollA, pollB.
  change (clock s + latA inp + latB inp) with (clock (delay (latB inp) (delay (latA inp) s))).
  destruct (SENSOR_POLL_MS <=? wrap32 (now - lastSensorPoll s)).
  - unfold updateSensor, measureDistanceCM.
    set (s1 := delay (latA inp) (set_lastSensorPoll now s)).
    destruct (debounce (isPresentAt _) (millis s1) (sA (set_lastSensorPoll now s))
                (countA (set_lastSensorPoll now s))) as [ssa ca] eqn:Da.
    set (s2 := set_countA ca (set_sA ssa s1)).
    set (s3 := delay (latB inp) s2).
    destruct (debounce (isPresentAt _) (millis s3) (sB s2) (countB s2))
      as [ssb cb] eqn:Db.
    change (countA (set_lastSensorPoll now s)) with (countA s) in Da.
    change (sA (set_lastSensorPoll now s)) with (sA s) in Da.
    change (millis s1) with (millis (delay (latA inp) s)) in Da.
    change (countB s2) with (countB s) in Db.
    change (sB s2) with (sB s) in Db.
    change (millis s3) with (millis (delay (latB inp) (delay (latA inp) s))) in Db.
    eexists. split; [reflexivity|]. split; [repeat split|]. split.
    + intros [HA HB]. split.
      * change (countA (set_countB cb (set_sB ssb s3))) with ca.
        pose proof (debounce_counter_range (isPresentAt
          (if to_long (echoA inp) =? 0 then -1 else Z.quot (to_long (echoA inp)) 58))
          (millis (delay (latA inp) s)) (sA s) _ HA) as H.
        rewrite Da in H. exact H.
      * change (countB (set_countB cb (set_sB ssb s3))) with cb.
        pose proof (debounce_counter_range (isPresentAt
          (if to_long (echoB inp) =? 0 then -1 else Z.quot (to_long (echoB inp)) 58))
          (millis (delay (latB inp) (delay (latA inp) s))) (sB s) _ HB) as H.
        rewrite Db in H. exact H.
    + split; [|split; [|split; reflexivity]].
      * symmetry. exact Da.
      * symmetry. exact Db.
  - exists s. split; [reflexivity|]. split; [apply samePlanAndLights_refl|].
    split; [tauto|reflexivity].
Qed.

Lemma checkButton_not_pressed_eq r1 r2 road s :
  pressed r1 r2 = false ->
  checkButton r1 r2 road s = (if Bool.eqb r1 LOW then delay 10 s else s).
Proof.
  unfold pressed, checkButton. destruct r1, r2; simpl; try discriminate; auto.
Qed.

Lemma loop_not_pressed inp s :
  pressedA inp = false -> pressedB inp = false ->
  let s0 := delay (idle inp) s in
  exists s1,
    loop inp s = option_map (delay 1) (stateMachine inp (millis s0) s1) /\
    set_clock 0 s1 = set_clock 0 s /\
    clock s1 = clock s + idle inp + buttonDelay inp.
Proof.
  intros PA PB s0. unfold loop. cbv zeta. fold s0.
  unfold checkButtons, pressedA, pressedB, buttonDelay in *.
  rewrite (checkButton_not_pressed_eq _ _ 1 s0 PA).
  rewrite (checkButton_not_pressed_eq _ _ 2 _ PB).
  destruct (Bool.eqb (readA1 inp) LOW), (Bool.eqb (readB1 inp) LOW);
    eexists; (split; [reflexivity|]); (split; [reflexivity|]);
    unfold s0, delay; cbn [clock set_clock]; lia.
Qed.

Lemma sameButClock_fields s1 s :
  set_clock 0 s1 = set_clock 0 s ->
  sysState s1 = sysState s /\ countA s1 = countA s /\ countB s1 = countB s /\
  sA s1 = sA s /\ sB s1 = sB s /\ pins s1 = pins s /\
  cycleStartTime s1 = cycleStartTime s /\ lastSensorPoll s1 = lastSensorPoll s /\
  execPhaseStart s1 = execPhaseStart s /\
  greenDurationA s1 = greenDurationA s /\ greenDurationB s1 = greenDurationB s /\
  executingAfirst s1 = executingAfirst s /\
  emerActive s1 = emerActive s /\ emerStart s1 = emerStart s /\
  emerRoad s1 = emerRoad s.
Proof.
  intros H.
  repeat split;
    [ exact (f_equal sysState H) | exact (f_equal countA H)
    | exact (f_equal countB H) | exact (f_equal sA H) | exact (f_equal sB H)
    | exact (f_equal pins H) | exact (f_equal cycleStartTime H)
    | exact (f_equal lastSensorPoll H) | exact (f_equal execPhaseStart H)
    | exact (f_equal greenDurationA H) | exact (f_equal greenDurationB H)
    | exact (f_equal executingAfirst H) | exact (f_equal emerActive H)
    | exact (f_equal emerStart H) | exact (f_equal emerRoad H) ].
Qed.

(** ** Counters stay in range and every iteration is defined *)

Lemma stepExecuting_counts now s :
  countsInRange s -> countsInRange (stepExecuting now s).
Proof.
  intros H. unfold stepExecuting.
  repeat match goal with
    | |- context [if ?b then _ else _] => destruct b
    end;
    first [ exact H | split; split; reflexivity || discriminate ].
Qed.

Lemma stepEmergency_counts now s :
  countsInRange s -> countsInRange (stepEmergency now s).
Proof.
  intros H. unfold stepEmergency.
  destruct (_ <=? _); [split; split; reflexivity || discriminate|exact H].
Qed.

Lemma stateMachine_defined inp now s :
  countsInRange s ->
  exists s', stateMachine inp now s = Some s' /\ countsInRange s'.
Proof.
  intros H. unfold stateMachine. destruct (sysState s).
  - destruct (stepCounting_poll inp now s) as (sp & E & _ & Hc & _).
    rewrite E. specialize (Hc H).
    destruct (_ <=? _).
    + destruct (startExecutionPhase_spec sp Hc)
        as (g & s' & _ & _ & E' & _ & _ & _ & _ & _ & CA & CB & _).
      exists s'. split; [exact E'|]. unfold countsInRange. rewrite CA, CB. exact Hc.
    + exists sp. split; [reflexivity|exact Hc].
  - eexists. split; [reflexivity|]. apply stepExecuting_counts, H.
  - eexists. split; [reflexivity|]. apply stepEmergency_counts, H.
Qed.

Lemma loop_defined inp s :
  countsInRange s -> exists s', loop inp s = Some s' /\ countsInRange s'.
Proof.
  intros H. destruct (pressedA inp || pressedB inp) eqn:P.
  - rewrite (loop_pressed inp s P). eexists. split; [reflexivity|].
    split; split; reflexivity || discriminate.
  - apply orb_false_elim in P as [PA PB].
    destruct (loop_not_pressed inp s PA PB) as (s1 & E & F & _).
    apply sameButClock_fields in F. destruct F as (_ & CA & CB & _).
    assert (H1 : countsInRange s1) by (unfold countsInRange; rewrite CA, CB; exact H).
    destruct (stateMachine_defined inp (millis (delay (idle inp) s)) s1 H1)
      as (s' & E' & H').
    rewrite E, E'. exists (delay 1 s'). split; [reflexivity|exact H'].
Qed.

(** ** The lights are never in conflict *)

Lemma safeLights_set p q s :
  match p, q with PHASE_RED, _ | _, PHASE_RED => True | _, _ => False end ->
  safeLights (setRoadLightsB q (setRoadLightsA p s)) = true.
Proof.
  intros H. unfold safeLights.
  destruct (lights_AB p q s) as [-> ->]. destruct p, q; tauto.
Qed.

Lemma safeLights_pins s s' : pins s' = pins s -> safeLights s' = safeLights s.
Proof. intros H. unfold safeLights, roadA, roadB. rewrite H. reflexivity. Qed.

Lemma stepExecuting_safe now s :
  safeLights s = true -> safeLights (stepExecuting now s) = true.
Proof.
  intros H. unfold stepExecuting.
  repeat match goal with
    | |- context [if ?b then _ else _] => destruct b
    end;
    first [ exact H | apply safeLights_set; exact I ].
Qed.

Lemma stepEmergency_safe now s :
  safeLights s = true -> safeLights (stepEmergency now s) = true.
Proof. intros H. unfold stepEmergency. destruct (_ <=? _); exact H. Qed.

Lemma startExecutionPhase_safe s s' :
  startExecutionPhase s = Some s' -> safeLights s' = true.
Proof.
  unfold startExecutionPhase.
  destruct (computeGreenMs (countA s) (countB s)) as [g|]; [|discriminate].
  cbv zeta. intros E.
  match type of E with Some ?t = _ =>
    assert (S : safeLights t = true)
      by (destruct (executingAfirst _); apply safeLights_set; exact I);
    set (t' := t) in *; clearbody t' end.
  congruence.
Qed.

Lemma stateMachine_safe inp now s s' :
  safeLights s = true -> stateMachine inp now s = Some s' -> safeLights s' = true.
Proof.
  intros H. unfold stateMachine. destruct (sysState s).
  - destruct (stepCounting_poll inp now s) as (sp & E & F & _).
    rewrite E. destruct (_ <=? _).
    + apply startExecutionPhase_safe.
    + intros E'. assert (sp = s') by congruence. subst s'.
      rewrite (safeLights_pins s sp); [exact H|apply F].
  - intros E. assert (E' : stepExecuting now s = s') by congruence.
    rewrite <- E'. apply stepExecuting_safe, H.
  - intros E. assert (E' : stepEmergency now s = s') by congruence.
    rewrite <- E'. apply stepEmergency_safe, H.
Qed.

Lemma loop_safe inp s s' :
  safeLights s = true -> loop inp s = Some s' -> safeLights s' = true.
Proof.
  intros H. destruct (pressedA inp || pressedB inp) eqn:P.
  - destruct (loop_pressed_lights inp s P) as (s2 & L & _ & _ & RA & RB).
    rewrite L. intros E. assert (s2 = s') by congruence. subst s'.
    unfold safeLights. rewrite RA, RB. destruct (pressedB inp); reflexivity.
  - apply orb_false_elim in P as [PA PB].
    destruct (loop_not_pressed inp s PA PB) as (s1 & E & F & _).
    apply sameButClock_fields in F. destruct F as (_ & _ & _ & _ & _ & Pn & _).
    intros L. rewrite E in L.
    destruct (stateMachine inp (millis (delay (idle inp) s)) s1) as [s2|] eqn:SM;
      [|discriminate].
    assert (E' : s' = delay 1 s2) by (cbn [option_map] in L; congruence).
    rewrite E'. change (safeLights s2 = true).
    apply (stateMachine_safe inp (millis (delay (idle inp) s)) s1 s2); [|exact SM].
    rewrite (safeLights_pins s s1 Pn). exact H.
Qed.

Lemma resetCountingCycle_pins s : pins (resetCountingCycle s) = pins s.
Proof. reflexivity. Qed.

Lemma setup_safe s : safeLights (setup s) = true.
Proof.
  unfold setup. cbv zeta.
  rewrite (safeLights_pins _ _ (resetCountingCycle_pins _)).
  apply safeLights_set. exact I.
Qed.

(** ** Inside the counting window *)

Lemma pollA_ext inp s s' :
  sA s' = sA s -> countA s' = countA s -> clock s' = clock s ->
  pollA inp s' = pollA inp s.
Proof.
  intros E1 E2 E3. unfold pollA, updateSensor, measureDistanceCM.
  cbn [fst]. unfold millis, delay. cbn [clock set_clock].
  rewrite E1, E2, E3. reflexivity.
Qed.

Lemma pollB_ext inp s s' :
  sB s' = sB s -> countB s' = countB s -> clock s' = clock s ->
  pollB inp s' = pollB inp s.
Proof.
  intros E1 E2 E3. unfold pollB, updateSensor, measureDistanceCM.
  cbn [fst]. unfold millis, delay. cbn [clock set_clock].
  rewrite E1, E2, E3. reflexivity.
Qed.

Lemma counting_tick inp s :
  sysState s = STATE_COUNTING ->
  pressedA inp = false -> pressedB inp = false ->
  wrap32 (millis (delay (idle inp) s) - cycleStartTime s) < CYCLE_TOTAL_MS ->
  exists s', loop inp s = Some s' /\ samePlanAndLights s s' /\
    let s1 := delay (idle inp + buttonDelay inp) s in
    if SENSOR_POLL_MS <=? wrap32 (millis (delay (idle inp) s) - lastSensorPoll s)
    then (sA s', countA s') = pollA inp s1 /\ (sB s', countB s') = pollB inp s1 /\
         lastSensorPoll s' = millis (delay (idle inp) s) /\
         clock s' = clock s1 + latA inp + latB inp + 1
    else sA s' = sA s /\ countA s' = countA s /\ sB s' = sB s /\ countB s' = countB s /\
         lastSensorPoll s' = lastSensorPoll s /\ clock s' = clock s1 + 1.
Proof.
  intros M PA PB W.
  destruct (loop_not_pressed inp s PA PB) as (s1 & E & F & C).
  pose proof (sameButClock_fields s1 s F)
    as (F1&F2&F3&F4&F5&F6&F7&F8&F9&F10&F11&F12&F13&F14&F15).
  set (now := millis (delay (idle inp) s)) in *.
  unfold stateMachine in E. rewrite F1, M in E.
  destruct (stepCounting_poll inp now s1) as (sp & E1 & G & _ & Hp).
  rewrite F7 in E1. rewrite F8 in Hp.
  destruct (CYCLE_TOTAL_MS <=? wrap32 (now - cycleStartTime s)) eqn:T;
    [apply Z.leb_le in T; lia|].
  rewrite E1 in E. exists (delay 1 sp). split; [exact E|].
  split.
  { apply (samePlanAndLights_trans s s1 (delay 1 sp)).
    - unfold samePlanAndLights. tauto.
    - apply (samePlanAndLights_trans s1 sp (delay 1 sp) G).
      apply samePlanAndLights_delay. }
  cbv zeta.
  destruct (SENSOR_POLL_MS <=? wrap32 (now - lastSensorPoll s)).
  - destruct Hp as (HA & HB & HL & HC).
    change (sA (delay 1 sp)) with (sA sp). change (sB (delay 1 sp)) with (sB sp).
    change (countA (delay 1 sp)) with (countA sp).
    change (countB (delay 1 sp)) with (countB sp).
    change (lastSensorPoll (delay 1 sp)) with (lastSensorPoll sp).
    change (clock (delay 1 sp)) with (clock sp + 1).
    rewrite HA, HB, HL, HC, C.
    split; [apply pollA_ext; try assumption; cbn [delay clock set_clock]; lia|].
    split; [apply pollB_ext; try assumption; cbn [delay clock set_clock]; lia|].
    split; [reflexivity|]. cbn [delay clock set_clock]. lia.
  - subst sp.
    change (sA (delay 1 s1)) with (sA s1). change (sB (delay 1 s1)) with (sB s1).
    change (countA (delay 1 s1)) with (countA s1).
    change (countB (delay 1 s1)) with (countB s1).
    change (lastSensorPoll (delay 1 s1)) with (lastSensorPoll s1).
    change (clock (delay 1 s1)) with (clock s1 + 1).
    rewrite C. repeat split; try assumption. cbn [delay clock set_clock]. lia.
Qed.

Lemma counting_run inps : forall s,
  sysState s = STATE_COUNTING -> insideWindow inps s = true ->
  exists s', run inps s = Some s' /\ samePlanAndLights s s'.
Proof.
  induction inps as [|inp rest IH]; intros s M W.
  - exists s. split; [reflexivity|apply samePlanAndLights_refl].
  - cbn [insideWindow] in W.
    apply andb_prop in W as [W W3]. apply andb_prop in W as [W1 W2].
    apply negb_true_iff, orb_false_elim in W1 as [PA PB].
    apply Z.ltb_lt in W2.
    destruct (counting_tick inp s M PA PB W2) as (s1 & L & F & _).
    rewrite L in W3.
    assert (M1 : sysState s1 = STATE_COUNTING)
      by (destruct F as (F1 & _); rewrite F1; exact M).
    destruct (IH s1 M1 W3) as (s' & R & F').
    exists s'. split; [cbn [run]; rewrite L; exact R|].
    apply (samePlanAndLights_trans s s1 s' F F').
Qed.

Lemma samePlanAndLights_roads s s' :
  samePlanAndLights s s' -> roadA s' = roadA s /\ roadB s' = roadB s.
Proof.
  intros F. assert (P : pins s' = pins s) by apply F.
  unfold roadA, roadB. rewrite P. split; reflexivity.
Qed.

(** While the counting window is open and no signal is observed, no
    iteration writes a light: the mode stays [STATE_COUNTING] and both roads
    keep the colours they had when the window opened, and the plan and the
    start of the window are untouched. *)
Theorem lights_frozen_while_counting inps s :
  sysState s = STATE_COUNTING -> insideWindow inps s = true ->
  exists s', run inps s = Some s' /\
    sysState s' = STATE_COUNTING /\ roadA s' = roadA s /\ roadB s' = roadB s /\
    cycleStartTime s' = cycleStartTime s /\
    greenDurationA s' = greenDurationA s /\ greenDurationB s' = greenDurationB s /\
    executingAfirst s' = executingAfirst s.
Proof.
  intros M W. destruct (counting_run inps s M W) as (s' & R & F).
  exists s'. split; [exact R|].
  destruct (samePlanAndLights_roads s s' F) as [RA RB].
  destruct F as (F1 & F2 & F3 & F4 & F5 & F6 & _).
  rewrite F1. tauto.
Qed.

(** A vehicle counter moves only in an iteration that polls, and then by
    one [debounce] step of each sensor. *)
Theorem counting_iteration_polls_once inp s :
  sysState s = STATE_COUNTING ->
  pressedA inp = false -> pressedB inp = false ->
  wrap32 (millis (delay (idle inp) s) - cycleStartTime s) < CYCLE_TOTAL_MS ->
  exists s', loop inp s = Some s' /\ sysState s' = STATE_COUNTING /\
    let s1 := delay (idle inp + buttonDelay inp) s in
    if SENSOR_POLL_MS <=? wrap32 (millis (delay (idle inp) s) - lastSensorPoll s)
    then (sA s', countA s') = pollA inp s1 /\ (sB s', countB s') = pollB inp s1 /\
         lastSensorPoll s' = millis (delay (idle inp) s) /\
         clock s' = clock s1 + latA inp + latB inp + 1
    else sA s' = sA s /\ countA s' = countA s /\ sB s' = sB s /\ countB s' = countB s /\
         lastSensorPoll s' = lastSensorPoll s /\ clock s' = clock s1 + 1.
Proof.
  intros M PA PB W.
  destruct (counting_tick inp s M PA PB W) as (s' & L & F & H).
  exists s'. split; [exact L|]. split; [|exact H].
  destruct F as (F1 & _). rewrite F1. exact M.
Qed.

(** ** The end of the counting window *)

Lemma wrap32_sub_r a b : wrap32 (a - wrap32 b) = wrap32 (a - b).
Proof. unfold wrap32. rewrite Zminus_mod_idemp_r. reflexivity. Qed.

(** The counting window closes in the first iteration that samples the
    clock 120 000 ms or more after the window opened, also when [millis()]
    wrapped around in between. *)
Theorem counting_window_closes_on_time inp s t0 :
  sysState s = STATE_COUNTING ->
  pressedA inp = false -> pressedB inp = false ->
  countsInRange s ->
  cycleStartTime s = wrap32 t0 ->
  0 <= clock s + idle inp - t0 < 2 ^ 32 ->
  exists s', loop inp s = Some s' /\
    sysState s'
    = (if clock s + idle inp - t0 <? CYCLE_TOTAL_MS
       then STATE_COUNTING else STATE_EXECUTING_TIMES).
Proof.
  intros M PA PB HC H0 Hd.
  assert (E : wrap32 (millis (delay (idle inp) s) - cycleStartTime s)
              = clock s + idle inp - t0).
  { rewrite H0. unfold millis, delay. cbn [clock set_clock].
    rewrite wrap32_sub_r, wrap32_sub_l. apply wrap32_small. exact Hd. }
  destruct (clock s + idle inp - t0 <? CYCLE_TOTAL_MS) eqn:T.
  - apply Z.ltb_lt in T. rewrite <- E in T.
    destruct (counting_tick inp s M PA PB T) as (s' & L & F & _).
    exists s'. split; [exact L|]. destruct F as (F1 & _). rewrite F1. exact M.
  - apply Z.ltb_ge in T. rewrite <- E in T.
    destruct (counting_window_end inp s M PA PB HC T) as (s' & L & M' & _).
    exists s'. split; [exact L|exact M'].
Qed.

(** ** Outside the counting mode *)

Lemma sameButPins_fields s1 s :
  set_pins (pins s) s1 = set_pins (pins s) s ->
  sysState s1 = sysState s /\ countA s1 = countA s /\ countB s1 = countB s /\
  sA s1 = sA s /\ sB s1 = sB s /\ clock s1 = clock s /\
  cycleStartTime s1 = cycleStartTime s /\ lastSensorPoll s1 = lastSensorPoll s /\
  execPhaseStart s1 = execPhaseStart s /\
  greenDurationA s1 = greenDurationA s /\ greenDurationB s1 = greenDurationB s /\
  executingAfirst s1 = executingAfirst s /\
  emerActive s1 = emerActive s /\ emerStart s1 = emerStart s /\
  emerRoad s1 = emerRoad s.
Proof.
  intros H.
  repeat split;
    [ exact (f_equal sysState H) | exact (f_equal countA H)
    | exact (f_equal countB H) | exact (f_equal sA H) | exact (f_equal sB H)
    | exact (f_equal clock H) | exact (f_equal cycleStartTime H)
    | exact (f_equal lastSensorPoll H) | exact (f_equal execPhaseStart H)
    | exact (f_equal greenDurationA H) | exact (f_equal greenDurationB H)
    | exact (f_equal executingAfirst H) | exact (f_equal emerActive H)
    | exact (f_equal emerStart H) | exact (f_equal emerRoad H) ].
Qed.

(** The [STATE_EXECUTING_TIMES] case either starts a new counting cycle or
    writes lights only. *)
Lemma stepExecuting_frame now s :
  stepExecuting now s = resetCountingCycle s \/
  set_pins (pins s) (stepExecuting now s) = set_pins (pins s) s.
Proof.
  unfold stepExecuting.
  repeat match goal with
    | |- context [if ?b then _ else _] => destruct b
    end;
    first [ left; reflexivity | right; reflexivity ].
Qed.

Lemma resetCountingCycle_fields s :
  let s' := resetCountingCycle s in
  sysState s' = STATE_COUNTING /\ countA s' = 0 /\ countB s' = 0 /\
  sA s' = SensorState_init /\ sB s' = SensorState_init /\
  cycleStartTime s' = millis s /\ lastSensorPoll s' = 0 /\
  pins s' = pins s /\ clock s' = clock s /\
  greenDurationA s' = greenDurationA s /\ greenDurationB s' = greenDurationB s /\
  executingAfirst s' = executingAfirst s /\ execPhaseStart s' = execPhaseStart s /\
  emerActive s' = emerActive s /\ emerRoad s' = emerRoad s /\
  emerStart s' = emerStart s.
Proof. cbv zeta. repeat split. Qed.

Lemma stateMachine_ignores_sensors inp inp' now s :
  sysState s <> STATE_COUNTING ->
  stateMachine inp' now s = stateMachine inp now s.
Proof.
  intros M. unfold stateMachine. destruct (sysState s); [congruence| |]; reflexivity.
Qed.

Lemma checkButtons_sameButtons inp inp' s :
  sameButtons inp inp' -> checkButtons inp' s = checkButtons inp s.
Proof.
  intros (_ & A1 & A2 & B1 & B2). unfold checkButtons. rewrite A1, A2, B1, B2.
  reflexivity.
Qed.

(** Outside the counting mode, and in every iteration that observes a
    signal, the sensors have no influence: the iteration yields the same
    state whatever the echoes are.  An iteration of the execution window
    without signal leaves the counters and the sensor states as they are, or
    is the one that ends the window and clears them. *)
Theorem sensors_ignored_outside_counting inp inp' s :
  sameButtons inp inp' ->
  sysState s <> STATE_COUNTING \/ pressedA inp || pressedB inp = true ->
  loop inp' s = loop inp s /\
  (sysState s = STATE_EXECUTING_TIMES ->
   pressedA inp = false -> pressedB inp = false ->
   exists s', loop inp s = Some s' /\
     ((sysState s' = STATE_EXECUTING_TIMES /\
       countA s' = countA s /\ countB s' = countB s /\
       sA s' = sA s /\ sB s' = sB s) \/
      (sysState s' = STATE_COUNTING /\ countA s' = 0 /\ countB s' = 0 /\
       sA s' = SensorState_init /\ sB s' = SensorState_init))).
Proof.
  intros SB H. split.
  - destruct (pressedA inp || pressedB inp) eqn:P.
    + assert (P' : pressedA inp' || pressedB inp' = true).
      { destruct SB as (_ & A1 & A2 & B1 & B2).
        unfold pressedA, pressedB in *. rewrite A1, A2, B1, B2. exact P. }
      rewrite (loop_pressed inp s P), (loop_pressed inp' s P').
      rewrite (checkButtons_sameButtons inp inp' _ SB).
      destruct SB as (-> & _). reflexivity.
    + destruct H as [M|H]; [|discriminate].
      apply orb_false_elim in P as [PA PB].
      unfold loop. cbv zeta.
      rewrite (checkButtons_sameButtons inp inp' _ SB).
      destruct SB as (-> & _).
      set (s0 := delay (idle inp) s).
      assert (M1 : sysState (checkButtons inp s0) <> STATE_COUNTING).
      { destruct (checkButtons_not_pressed inp s0 PA PB) as [E|[E|E]]; rewrite E;
          exact M. }
      rewrite (stateMachine_ignores_sensors inp inp' _ _ M1). reflexivity.
  - intros M PA PB.
    destruct (loop_not_pressed inp s PA PB) as (s1 & E & F & _).
    pose proof (sameButClock_fields s1 s F) as (F1 & F2 & F3 & F4 & F5 & _).
    unfold stateMachine in E. rewrite F1, M in E. cbn [option_map] in E.
    set (now := millis (delay (idle inp) s)) in *.
    exists (delay 1 (stepExecuting now s1)). split; [exact E|].
    destruct (stepExecuting_frame now s1) as [R|R].
    + right. rewrite R.
      destruct (resetCountingCycle_fields s1) as (G1 & G2 & G3 & G4 & G5 & _).
      repeat split; assumption.
    + left. apply sameButPins_fields in R.
      destruct R as (R1 & R2 & R3 & R4 & R5 & _).
      change (sysState (stepExecuting now s1) = STATE_EXECUTING_TIMES /\
              countA (stepExecuting now s1) = countA s /\
              countB (stepExecuting now s1) = countB s /\
              sA (stepExecuting now s1) = sA s /\ sB (stepExecuting now s1) = sB s).
      rewrite R1, R2, R3, R4, R5, F1, F2, F3, F4, F5. repeat split. exact M.
Qed.

(** ** The end of the execution window *)

(** The iteration that finds the execution window complete starts a new
    counting cycle: counters and sensor states are cleared, the window
    starts at the clock read after the button checks, and the lights are
    left as the last segment set them. *)
Theorem execution_window_end_resets_cycle inp s :
  sysState s = STATE_EXECUTING_TIMES ->
  pressedA inp = false -> pressedB inp = false ->
  planFits s ->
  planTotal s <= wrap32 (millis (delay (idle inp) s) - execPhaseStart s) ->
  exists s', loop inp s = Some s' /\
    sysState s' = STATE_COUNTING /\ countA s' = 0 /\ countB s' = 0 /\
    sA s' = SensorState_init /\ sB s' = SensorState_init /\
    cycleStartTime s' = wrap32 (clock s + idle inp + buttonDelay inp) /\
    lastSensorPoll s' = 0 /\
    roadA s' = roadA s /\ roadB s' = roadB s /\
    greenDurationA s' = greenDurationA s /\ greenDurationB s' = greenDurationB s /\
    executingAfirst s' = executingAfirst s.
Proof.
  intros M PA PB PF T.
  destruct (loop_not_pressed inp s PA PB) as (s1 & E & F & C).
  pose proof (sameButClock_fields s1 s F)
    as (F1&F2&F3&F4&F5&F6&F7&F8&F9&F10&F11&F12&F13&F14&F15).
  unfold stateMachine in E. rewrite F1, M in E. cbn [option_map] in E.
  set (now := millis (delay (idle inp) s)) in *.
  assert (PF1 : planFits s1).
  { unfold planFits, planTotal in *. rewrite F10, F11. exact PF. }
  pose proof (stepExecuting_spec now s1 PF1) as S. cbv zeta in S.
  rewrite F9, F10, F11, F12 in S.
  rewrite spec_phaseAt_complete in S;
    [|apply PF|apply PF|lia|unfold planTotal in T; exact T].
  rewrite S in E. exists (delay 1 (resetCountingCycle s1)). split; [exact E|].
  destruct (resetCountingCycle_fields s1)
    as (G1&G2&G3&G4&G5&G6&G7&G8&G9&G10&G11&G12&_).
  set (r := resetCountingCycle s1) in *. clearbody r.
  rewrite roadA_delay, roadB_delay. unfold roadA, roadB. rewrite G8, F6.
  unfold millis in G6. rewrite C in G6.
  change (sysState r = STATE_COUNTING /\ countA r = 0 /\ countB r = 0 /\
          sA r = SensorState_init /\ sB r = SensorState_init /\
          cycleStartTime r = wrap32 (clock s + idle inp + buttonDelay inp) /\
          lastSensorPoll r = 0 /\
          phaseOfLeds (red_a (pins s)) (yellow_a (pins s)) (green_a (pins s))
          = phaseOfLeds (red_a (pins s)) (yellow_a (pins s)) (green_a (pins s)) /\
          phaseOfLeds (red_b (pins s)) (yellow_b (pins s)) (green_b (pins s))
          = phaseOfLeds (red_b (pins s)) (yellow_b (pins s)) (green_b (pins s)) /\
          greenDurationA r = greenDurationA s /\ greenDurationB r = greenDurationB s /\
          executingAfirst r = executingAfirst s).
  repeat split; congruence.
Qed.

(** ** Emergency signals *)

Lemma pressed_tick inp s :
  pressedA inp || pressedB inp = true ->
  exists s', loop inp s = Some s' /\
    sysState s' = STATE_COUNTING /\ emerActive s' = false /\ emerRoad s' = 0 /\
    countA s' = 0 /\ countB s' = 0 /\
    sA s' = SensorState_init /\ sB s' = SensorState_init /\
    cycleStartTime s' = wrap32 (clock s' - 1) /\
    roadA s' = Some (if pressedB inp then PHASE_RED else PHASE_GREEN) /\
    roadB s' = Some (if pressedB inp then PHASE_GREEN else PHASE_RED).
Proof.
  intros P.
  destruct (loop_pressed_lights inp s P) as (s' & L & _ & _ & RA & RB).
  exists s'. split; [exact L|].
  rewrite (loop_pressed inp s P) in L.
  set (s1 := checkButtons inp (delay (idle inp) s)) in *.
  destruct (endEmergency_fields s1)
    as (G1&G2&G3&G4&G5&G6&G7&G8&_&_&_&_&_&_&_&G16).
  cbv zeta in *.
  set (r := delay 1 (endEmergency s1)) in *. clearbody r.
  assert (E : r = s') by congruence. subst s'.
  repeat split; try assumption.
  rewrite G8, G16. unfold millis. f_equal. lia.
Qed.

(** The requested road is Green and the other Red after an iteration that
    observes a signal, and they stay so in every later iteration while the
    counting window that this iteration opened has not elapsed and no new
    signal is observed.  (The 10 s of [EMERGENCY_GREEN_MS] play no part.) *)
Theorem emergency_green_lasts_counting_window inp s s0 inps :
  pressedA inp || pressedB inp = true ->
  loop inp s = Some s0 ->
  insideWindow inps s0 = true ->
  exists s', run inps s0 = Some s' /\ sysState s' = STATE_COUNTING /\
    roadA s' = Some (if pressedB inp then PHASE_RED else PHASE_GREEN) /\
    roadB s' = Some (if pressedB inp then PHASE_GREEN else PHASE_RED).
Proof.
  intros P L0 W.
  destruct (pressed_tick inp s P) as (s2 & L & M & _ & _ & _ & _ & _ & _ & _ & RA & RB).
  assert (s2 = s0) by congruence. subst s2.
  destruct (counting_run inps s0 M W) as (s' & R & F).
  exists s'. split; [exact R|].
  destruct (samePlanAndLights_roads s0 s' F) as [EA EB].
  destruct F as (F1 & _). rewrite F1, EA, EB. tauto.
Qed.

(** While a signal is observed in every iteration, every iteration opens a
    new counting window: the mode after each is [STATE_COUNTING] with both
    counters at 0 and the window started 1 ms earlier, so that no vehicle is
    counted and no execution window is reached. *)
Theorem held_signal_restarts_window inps inp s :
  Forall (fun i => pressedA i || pressedB i = true) (inps ++ [inp]) ->
  exists s', run (inps ++ [inp]) s = Some s' /\
    sysState s' = STATE_COUNTING /\ countA s' = 0 /\ countB s' = 0 /\
    sA s' = SensorState_init /\ sB s' = SensorState_init /\
    cycleStartTime s' = wrap32 (clock s' - 1) /\
    roadA s' = Some (if pressedB inp then PHASE_RED else PHASE_GREEN) /\
    roadB s' = Some (if pressedB inp then PHASE_GREEN else PHASE_RED).
Proof.
  revert s. induction inps as [|i rest IH]; intros s H.
  - apply Forall_inv in H.
    destruct (pressed_tick inp s H) as (s' & L & M & _ & _ & G).
    exists s'. split; [cbn [app run]; rewrite L; reflexivity|]. tauto.
  - cbn [app] in H. pose proof (Forall_inv H) as P. apply Forall_inv_tail in H.
    destruct (pressed_tick i s P) as (s1 & L & _).
    destruct (IH s1 H) as (s' & R & G).
    exists s'. split; [cbn [app run]; rewrite L; exact R|exact G].
Qed.

(** ** The emergency variables between iterations *)

Lemma startExecutionPhase_emer s s' :
  startExecutionPhase s = Some s' ->
  emerActive s' = emerActive s /\ emerRoad s' = emerRoad s.
Proof.
  destruct (computeGreenMs (countA s) (countB s)) as [g|] eqn:G.
  - rewrite (startExecutionPhase_eq s g G). cbv zeta. intros E.
    match type of E with Some ?t = _ =>
      assert (S : emerActive t = emerActive s /\ emerRoad t = emerRoad s)
        by (destruct (countB s <=? countA s); split; reflexivity);
      set (t' := t) in *; clearbody t' end.
    assert (t' = s') by congruence. subst s'. exact S.
  - unfold startExecutionPhase. rewrite G. discriminate.
Qed.

Lemma stateMachine_emergencyIdle inp now s s' :
  emergencyIdle s -> stateMachine inp now s = Some s' -> emergencyIdle s'.
Proof.
  intros (M & A & R) E.
  assert (M' : sysState s' <> STATE_EMERGENCY).
  { unfold stateMachine in E. destruct (sysState s) eqn:Ms; [| |congruence].
    - apply (stepCounting_mode inp now s s' Ms E).
    - assert (E' : stepExecuting now s = s') by congruence. rewrite <- E'.
      apply (stepExecuting_mode now s Ms). }
  split; [exact M'|].
  unfold stateMachine in E. destruct (sysState s) eqn:Ms; [| |congruence].
  - destruct (stepCounting_poll inp now s) as (sp & E1 & F & _).
    destruct F as (_&_&_&_&_&_&FA&_&FR&_).
    rewrite E1 in E. destruct (_ <=? _).
    + destruct (startExecutionPhase_emer sp s' E) as [-> ->]. split; congruence.
    + assert (sp = s') by congruence. subst s'. split; congruence.
  - assert (E' : stepExecuting now s = s') by congruence.
    destruct (stepExecuting_frame now s) as [F|F].
    + rewrite <- E', F. split; [exact A|exact R].
    + apply sameButPins_fields in F. rewrite E' in F.
      destruct F as (_&_&_&_&_&_&_&_&_&_&_&_&FA&_&FR). split; congruence.
Qed.

Lemma loop_emergencyIdle inp s s' :
  emergencyIdle s -> loop inp s = Some s' -> emergencyIdle s'.
Proof.
  intros H L. destruct (pressedA inp || pressedB inp) eqn:P.
  - destruct (pressed_tick inp s P) as (s2 & L2 & M & A & R & _).
    assert (s2 = s') by congruence. subst s'.
    split; [rewrite M; discriminate|split; assumption].
  - apply orb_false_elim in P as [PA PB].
    destruct (loop_not_pressed inp s PA PB) as (s1 & E & F & _).
    pose proof (sameButClock_fields s1 s F)
      as (F1&_&_&_&_&_&_&_&_&_&_&_&F13&_&F15).
    assert (H1 : emergencyIdle s1).
    { unfold emergencyIdle. rewrite F1, F13, F15. exact H. }
    rewrite E in L.
    destruct (stateMachine inp (millis (delay (idle inp) s)) s1) as [s2|] eqn:SM;
      [|discriminate].
    assert (E' : s' = delay 1 s2) by (cbn [option_map] in L; congruence).
    rewrite E'.
    apply (stateMachine_emergencyIdle inp (millis (delay (idle inp) s)) s1 s2 H1 SM).
Qed.

Lemma setup_counts s : countsInRange (setup s).
Proof. split; split; reflexivity || discriminate. Qed.

Lemma setup_emergencyIdle s : emerActive s = false -> emerRoad s = 0 -> emergencyIdle (setup s).
Proof.
  intros A R. split; [discriminate|]. split; [exact A|exact R].
Qed.

(** ** The sensor state machine *)

Lemma debounce_consistent p now ss c :
  sensorConsistent ss -> sensorConsistent (fst (debounce p now ss c)).
Proof.
  unfold sensorConsistent, debounce. intros H.
  destruct p, (present ss) eqn:P; cbn [Bool.eqb negb fst];
    try congruence;
    destruct (_ <=? _); cbn [fst present waitingForAbsence]; try congruence.
  rewrite H. reflexivity.
Qed.

Lemma debounce_counter_cases p now ss c :
  snd (debounce p now ss c) = c \/
  (snd (debounce p now ss c) = wrap16 (c + 1) /\
   p = false /\ present ss = true /\
   present (fst (debounce p now ss c)) = false).
Proof.
  unfold debounce.
  destruct p, (present ss) eqn:P; cbn [Bool.eqb negb]; auto;
    destruct (_ <=? _); cbn [fst snd present waitingForAbsence]; auto.
  destruct (waitingForAbsence ss); cbn [fst snd present]; auto.
Qed.

Lemma debounce_present_cases p now ss c :
  fst (debounce p now ss c) = ss /\ snd (debounce p now ss c) = c \/
  present (fst (debounce p now ss c)) = p /\ present ss = negb p.
Proof.
  unfold debounce.
  destruct p, (present ss) eqn:P; cbn [Bool.eqb negb]; auto;
    destruct (_ <=? _); cbn [fst snd present waitingForAbsence]; auto.
  destruct (waitingForAbsence ss); cbn [fst snd present]; auto.
Qed.

Lemma wrap16_add_l a b : wrap16 (wrap16 a + b) = wrap16 (a + b).
Proof. unfold wrap16. rewrite Zplus_mod_idemp_l. reflexivity. Qed.

Lemma feed_counter polls : forall ss c,
  0 <= c < 2 ^ 16 ->
  snd (feed polls ss c) = wrap16 (c + Z.of_nat (passEvents polls ss c)).
Proof.
  induction polls as [|[p now] rest IH]; intros ss c Hc.
  - cbn [feed passEvents snd]. rewrite Z.add_0_r. unfold wrap16.
    rewrite Z.mod_small; [reflexivity|exact Hc].
  - cbn [feed passEvents].
    pose proof (debounce_counter_range p now ss c Hc) as Hr.
    pose proof (debounce_counter_cases p now ss c) as Hs.
    destruct (debounce p now ss c) as [ss' c']. cbn [fst snd] in *.
    rewrite (IH ss' c' Hr).
    destruct Hs as [->|(-> & _)].
    + rewrite Z.eqb_refl. reflexivity.
    + rewrite (wrap16_succ_neq c Hc). rewrite wrap16_add_l. f_equal.
      rewrite Nat2Z.inj_add. change (Z.of_nat 1) with 1. lia.
Qed.

Lemma passEvents_bound polls : forall ss c,
  (2 * passEvents polls ss c <= length polls + (if present ss then 1 else 0))%nat.
Proof.
  induction polls as [|[p now] rest IH]; intros ss c.
  - cbn [passEvents length]. lia.
  - cbn [passEvents length].
    pose proof (debounce_counter_cases p now ss c) as Hs.
    pose proof (debounce_present_cases p now ss c) as Hp.
    destruct (debounce p now ss c) as [ss' c']. cbn [fst snd] in *.
    specialize (IH ss' c').
    destruct Hs as [->|(-> & -> & P & P')].
    + rewrite Z.eqb_refl.
      destruct Hp as [[-> _]|[P' P]].
      * lia.
      * rewrite P. rewrite P' in IH. destruct p; cbn [negb]; lia.
    + rewrite P. rewrite P' in IH.
      destruct (wrap16 (c + 1) =? c); lia.
Qed.

(** The counter is the number of pass events, modulo 2^16. *)
Theorem counter_counts_pass_events polls ss c :
  0 <= c < 2 ^ 16 ->
  snd (feed polls ss c) = wrap16 (c + Z.of_nat (passEvents polls ss c)).
Proof. apply feed_counter. Qed.

(** A pass needs two accepted polls, an arrival and a departure: there are
    at most half as many passes as polls, and a counter that starts at 0
    does not wrap around in fewer than 131 071 polls. *)
Theorem one_pass_needs_two_polls polls ss :
  (2 * passEvents polls ss 0 <= length polls + (if present ss then 1 else 0))%nat /\
  (Z.of_nat (length polls) <= 131070 ->
   snd (feed polls ss 0) = Z.of_nat (passEvents polls ss 0)).
Proof.
  pose proof (passEvents_bound polls ss 0) as B. split; [exact B|].
  intros L.
  rewrite feed_counter by (split; [lia|reflexivity]).
  unfold wrap16. rewrite Z.add_0_l. apply Z.mod_small.
  change (2 ^ 16) with 65536. destruct (present ss); lia.
Qed.

(** A reading that stays the same is accepted at most once: the presence
    state either never changes or becomes the reading, and at most one pass
    is counted. *)
Theorem constant_reading_settles b polls : forall ss c,
  Forall (fun r => fst r = b) polls ->
  (passEvents polls ss c <= 1)%nat /\
  (fst (feed polls ss c) = ss \/ present (fst (feed polls ss c)) = b).
Proof.
  induction polls as [|[p now] rest IH]; intros ss c H.
  - cbn [passEvents feed fst]. split; [lia|left; reflexivity].
  - pose proof (Forall_inv H) as Hb. cbn [fst] in Hb. subst p.
    apply Forall_inv_tail in H.
    cbn [passEvents feed].
    pose proof (debounce_present_cases b now ss c) as Hp.
    destruct (debounce b now ss c) as [ss' c'] eqn:D. cbn [fst snd] in Hp.
    destruct Hp as [[-> ->]|[P' _]].
    + rewrite Z.eqb_refl. destruct (IH ss c H) as [I1 I2].
      split; [exact I1|exact I2].
    + destruct (feed_stable b rest ss' c' H P') as [F E].
      rewrite F, E. cbn [fst]. split; [destruct (c' =? c); lia|right; exact P'].
Qed.

(** ** The distance test *)

Lemma to_long_small z : 0 <= z < 2 ^ 31 -> to_long z = z.
Proof.
  intros H. unfold to_long. rewrite Z.mod_small; lia.
Qed.

Lemma to_long_large z : 2 ^ 31 <= z < 2 ^ 32 -> to_long z = z - 2 ^ 32.
Proof.
  intros H. unfold to_long.
  replace (z + 2 ^ 31) with (z - 2 ^ 31 + 1 * 2 ^ 32) by lia.
  rewrite Z.mod_add by lia. rewrite Z.mod_small; lia.
Qed.

(** A vehicle is seen exactly when the echo lasts between 58 and 3537
    microseconds, that is at 1 to 60 cm: a timeout, an echo shorter than
    58 us (an object nearer than 1 cm) and an echo of 3538 us or more all
    read as absence. *)
Theorem presence_iff_echo_in_range echo lat s :
  0 <= echo < 2 ^ 32 ->
  isPresentAt (fst (measureDistanceCM echo lat s))
  = (58 <=? echo) && (echo <=? 3537).
Proof.
  intros H. unfold measureDistanceCM, isPresentAt, DIST_THRESHOLD_CM. cbn [fst].
  destruct (Z_lt_le_dec echo (2 ^ 31)) as [Hs|Hl].
  - rewrite to_long_small by lia.
    destruct (echo =? 0) eqn:E0.
    + apply Z.eqb_eq in E0. subst echo. reflexivity.
    + apply Z.eqb_neq in E0. rewrite Z.quot_div_nonneg by lia.
      assert (D1 : 0 < echo / 58 <-> 58 <= echo).
      { split; intros I.
        - destruct (Z_lt_le_dec echo 58) as [J|J]; [|exact J].
          rewrite Z.div_small in I by lia. lia.
        - apply Z.div_str_pos. lia. }
      assert (D2 : echo / 58 <= 60 <-> echo <= 3537).
      { split; intros I.
        - destruct (Z_lt_le_dec 3537 echo) as [J|J]; [|exact J].
          assert (61 <= echo / 58) by (apply Z.div_le_lower_bound; lia). lia.
        - assert (echo / 58 < 61) by (apply Z.div_lt_upper_bound; lia). lia. }
      destruct (0 <? echo / 58) eqn:A, (echo / 58 <=? 60) eqn:B,
               (58 <=? echo) eqn:C, (echo <=? 3537) eqn:D; try reflexivity;
        rewrite ?Z.ltb_lt, ?Z.ltb_ge, ?Z.leb_le, ?Z.leb_gt in *; lia.
  - rewrite to_long_large by lia.
    assert (N : echo - 2 ^ 32 < 0) by lia.
    destruct (echo - 2 ^ 32 =? 0) eqn:E0; [apply Z.eqb_eq in E0; lia|].
    assert (Q : Z.quot (echo - 2 ^ 32) 58 <= 0).
    { apply Z.quot_le_upper_bound; lia. }
    replace (0 <? Z.quot (echo - 2 ^ 32) 58) with false
      by (symmetry; apply Z.ltb_ge; exact Q).
    replace (echo <=? 3537) with false by (symmetry; apply Z.leb_gt; lia).
    rewrite andb_false_r. reflexivity.
Qed.

(** ** Sensor states between iterations *)

Lemma startExecutionPhase_sensors s s' :
  startExecutionPhase s = Some s' -> sA s' = sA s /\ sB s' = sB s.
Proof.
  destruct (computeGreenMs (countA s) (countB s)) as [g|] eqn:G.
  - rewrite (startExecutionPhase_eq s g G). cbv zeta. intros E.
    match type of E with Some ?t = _ =>
      assert (S : sA t = sA s /\ sB t = sB s)
        by (destruct (countB s <=? countA s); split; reflexivity);
      set (t' := t) in *; clearbody t' end.
    assert (t' = s') by congruence. subst s'. exact S.
  - unfold startExecutionPhase. rewrite G. discriminate.
Qed.

Lemma updateSensor_consistent ss c echo lat s :
  sensorConsistent ss ->
  sensorConsistent (fst (fst (updateSensor ss c echo lat s))).
Proof.
  intros H. unfold updateSensor, measureDistanceCM. cbn [fst].
  apply debounce_consistent, H.
Qed.

Lemma stateMachine_sensorsConsistent inp now s s' :
  sensorsConsistent s -> stateMachine inp now s = Some s' -> sensorsConsistent s'.
Proof.
  intros [HA HB] E. unfold stateMachine in E. destruct (sysState s).
  - destruct (stepCounting_poll inp now s) as (sp & E1 & _ & _ & Hp).
    assert (Hsp : sensorsConsistent sp).
    { destruct (SENSOR_POLL_MS <=? _).
      - destruct Hp as (PA & PB & _). split.
        + change (sA sp) with (fst (sA sp, countA sp)). rewrite PA.
          apply updateSensor_consistent, HA.
        + change (sB sp) with (fst (sB sp, countB sp)). rewrite PB.
          apply updateSensor_consistent, HB.
      - subst sp. split; assumption. }
    rewrite E1 in E. destruct (_ <=? _).
    + destruct (startExecutionPhase_sensors sp s' E) as [EA EB].
      unfold sensorsConsistent. rewrite EA, EB. exact Hsp.
    + assert (sp = s') by congruence. subst s'. exact Hsp.
  - assert (E' : stepExecuting now s = s') by congruence.
    destruct (stepExecuting_frame now s) as [F|F].
    + rewrite <- E', F. split; reflexivity.
    + apply sameButPins_fields in F. rewrite E' in F.
      destruct F as (_&_&_&FA&FB&_). unfold sensorsConsistent.
      rewrite FA, FB. split; assumption.
  - assert (E' : stepEmergency now s = s') by congruence.
    rewrite <- E'. unfold stepEmergency. destruct (_ <=? _).
    + split; reflexivity.
    + split; assumption.
Qed.

Lemma loop_sensorsConsistent inp s s' :
  sensorsConsistent s -> loop inp s = Some s' -> sensorsConsistent s'.
Proof.
  intros H L. destruct (pressedA inp || pressedB inp) eqn:P.
  - destruct (pressed_tick inp s P) as (s2 & L2 & _ & _ & _ & _ & _ & IA & IB & _).
    assert (s2 = s') by congruence. subst s'.
    unfold sensorsConsistent. rewrite IA, IB. split; reflexivity.
  - apply orb_false_elim in P as [PA PB].
    destruct (loop_not_pressed inp s PA PB) as (s1 & E & F & _).
    pose proof (sameButClock_fields s1 s F) as (_&_&_&F4&F5&_).
    assert (H1 : sensorsConsistent s1).
    { unfold sensorsConsistent. rewrite F4, F5. exact H. }
    rewrite E in L.
    destruct (stateMachine inp (millis (delay (idle inp) s)) s1) as [s2|] eqn:SM;
      [|discriminate].
    assert (E' : s' = delay 1 s2) by (cbn [option_map] in L; congruence).
    rewrite E'.
    apply (stateMachine_sensorsConsistent inp (millis (delay (idle inp) s)) s1 s2 H1 SM).
Qed.

(** ** What holds after every iteration *)

Lemma run_invariant (Inv : State -> Prop) :
  (forall inp s s', Inv s -> loop inp s = Some s' -> Inv s') ->
  forall inps s s', Inv s -> run inps s = Some s' -> Inv s'.
Proof.
  intros Step. induction inps as [|inp rest IH]; intros s s' H R; cbn [run] in R.
  - assert (s = s') by congruence. subst s'. exact H.
  - destruct (loop inp s) as [s1|] eqn:L; [|discriminate].
    apply (IH s1 s' (Step inp s s1 H L) R).
Qed.

Lemma run_defined inps : forall s,
  countsInRange s -> exists s', run inps s = Some s' /\ countsInRange s'.
Proof.
  induction inps as [|inp rest IH]; intros s H.
  - exists s. split; [reflexivity|exact H].
  - destruct (loop_defined inp s H) as (s1 & L & H1).
    destruct (IH s1 H1) as (s' & R & H').
    exists s'. split; [|exact H']. cbn [run]. rewrite L. exact R.
Qed.

(** From power-up on, every iteration of [loop] is defined: the conversion
    of the green time to [unsigned long] never leaves its range, whatever
    the buttons and the sensors do; and the two counters hold 16-bit
    values. *)
Theorem loop_always_defined inps :
  exists s', run inps (setup power_on) = Some s' /\ countsInRange s'.
Proof. apply run_defined, setup_counts. Qed.

(** From power-up on, after every iteration each road shows exactly one
    colour and at least one of the two roads shows Red: the two roads are
    never Green or Yellow together, and no LED combination is mixed or
    dark. *)
Theorem lights_never_conflict inps :
  exists s', run inps (setup power_on) = Some s' /\ safeLights s' = true.
Proof.
  destruct (run_defined inps (setup power_on) (setup_counts power_on)) as (s' & R & _).
  exists s'. split; [exact R|].
  apply (run_invariant (fun s => safeLights s = true) loop_safe inps
           (setup power_on) s' (setup_safe power_on) R).
Qed.

(** From power-up on, the emergency variables are idle after every
    iteration: the mode is [STATE_COUNTING] or [STATE_EXECUTING_TIMES],
    [emerActive] is false and [emerRoad] is 0, whatever the buttons did. *)
Theorem emergency_idle_between_iterations inps :
  exists s', run inps (setup power_on) = Some s' /\
    (sysState s' = STATE_COUNTING \/ sysState s' = STATE_EXECUTING_TIMES) /\
    emerActive s' = false /\ emerRoad s' = 0.
Proof.
  destruct (run_defined inps (setup power_on) (setup_counts power_on)) as (s' & R & _).
  exists s'. split; [exact R|].
  pose proof (run_invariant emergencyIdle loop_emergencyIdle inps
                (setup power_on) s'
                (setup_emergencyIdle power_on eq_refl eq_refl) R) as (M & A & E).
  split; [|split; assumption].
  destruct (sysState s'); [left; reflexivity|right; reflexivity|congruence].
Qed.

(** From power-up on, [waitingForAbsence] equals [present] in both sensor
    states after every iteration: the flag carries no information of its
    own, and every accepted departure is counted. *)
Theorem waiting_flag_tracks_presence inps :
  exists s', run inps (setup power_on) = Some s' /\
    waitingForAbsence (sA s') = present (sA s') /\
    waitingForAbsence (sB s') = present (sB s').
Proof.
  destruct (run_defined inps (setup power_on) (setup_counts power_on)) as (s' & R & _).
  exists s'. split; [exact R|].
  apply (run_invariant sensorsConsistent loop_sensorsConsistent inps
           (setup power_on) s'); [|exact R].
  split; reflexivity.
Qed.

(** ** The denominator of the ratio *)

Section F32Signs.

Import F32.

Lemma shl_align_cases mx ex fe :
  snd (shl_align mx ex fe) = ex \/ snd (shl_align mx ex fe) = fe.
Proof.
  unfold shl_align. destruct (fe - ex); cbn [snd]; auto.
Qed.

Lemma shift_of_small m e :
  0 < m -> -149 <= e -> 0 <= shift_of m e <= Z.log2 m.
Proof.
  intros Hm He. unfold shift_of. rewrite fexp_eq.
  rewrite (Zdigits2_log2 m Hm).
  pose proof (Z.log2_nonneg m). lia.
Qed.

Lemma shift_of_exp m e : -149 <= e -> -149 <= e + shift_of m e.
Proof. unfold shift_of. lia. Qed.

Lemma pack_positive m e : 0 < m -> isPositive (pack false m e) = true.
Proof.
  destruct m; try lia. intros _. unfold pack. destruct (_ <=? _); reflexivity.
Qed.

(** Rounding a positive number whose exponent is not below the smallest
    one gives a positive number: nothing is flushed to zero. *)
Lemma binary_round_aux_positive m e l :
  0 < m -> -149 <= e ->
  isPositive (binary_round_aux prec emax false m e l) = true.
Proof.
  intros Hm He.
  destruct (binary_round_aux_shape false m e l ltac:(lia)) as (m2 & H2 & ->).
  cbv zeta in H2.
  destruct (shift_of_small m e Hm He) as [K0 K1].
  destruct (Zdigits2_shiftr m (shift_of m e) Hm (conj K0 K1)) as [P1 _].
  assert (P2 : 0 < m2) by lia.
  pose proof (shift_of_exp m e He) as He1.
  destruct (shift_of_small m2 (e + shift_of m e) P2 He1) as [J0 J1].
  destruct (Zdigits2_shiftr m2 _ P2 (conj J0 J1)) as [P3 _].
  apply pack_positive. exact P3.
Qed.

Lemma binary_round_positive mx ex :
  -149 <= ex -> isPositive (binary_round prec emax false mx ex) = true.
Proof.
  intros He. unfold binary_round.
  pose proof (shl_align_cases mx ex (fexp prec emax (Zpos (digits2_pos mx) + ex))) as C.
  destruct (shl_align mx ex (fexp prec emax (Zpos (digits2_pos mx) + ex)))
    as [mz ez]. cbn [snd] in C.
  apply binary_round_aux_positive; [lia|].
  destruct C as [->| ->]; [exact He|rewrite fexp_eq; lia].
Qed.

Lemma valid_exponent s m e :
  valid_binary prec emax (S754_finite s m e) = true -> -149 <= e.
Proof.
  cbn [valid_binary]. unfold bounded, canonical_mantissa. intros H.
  apply andb_prop in H as [H _]. apply Z.eqb_eq in H.
  rewrite fexp_eq in H. lia.
Qed.

Lemma of_uint_nonneg x :
  0 <= x ->
  isNonneg (of_uint x) = true /\ valid_binary prec emax (of_uint x) = true.
Proof.
  intros Hx. split; [|apply binary_normalize_valid].
  unfold of_uint. destruct x as [|p|p]; try lia; [reflexivity|].
  cbn [binary_normalize].
  pose proof (binary_round_positive p 0 ltac:(lia)) as H.
  destruct (binary_round prec emax false p 0) as [[|]|[|]| |[|] m e];
    try discriminate H; reflexivity.
Qed.

Lemma add_nonneg a b :
  isNonneg a = true -> valid_binary prec emax a = true ->
  isNonneg b = true -> valid_binary prec emax b = true ->
  isNonneg (add a b) = true /\ valid_binary prec emax (add a b) = true /\
  (isPositive b = true -> isPositive (add a b) = true).
Proof.
  intros Na Va Nb Vb.
  destruct a as [[|]|[|]| |[|] ma ea]; try discriminate Na;
    destruct b as [[|]|[|]| |[|] mb eb]; try discriminate Nb;
    try (split; [reflexivity|split; [assumption || reflexivity|]];
         intros H; first [exact H | reflexivity | discriminate H]).
  pose proof (valid_exponent _ _ _ Va) as Ea.
  pose proof (valid_exponent _ _ _ Vb) as Eb.
  unfold add, SFadd. cbv zeta. cbn [cond_Zopp].
  set (ez := Z.min ea eb).
  assert (P : isPositive (binary_normalize prec emax
               (Zpos (fst (shl_align ma ea ez)) + Zpos (fst (shl_align mb eb ez)))
               ez false) = true).
  { cbn [Z.add binary_normalize]. apply binary_round_positive. unfold ez. lia. }
  split; [|split; [apply binary_normalize_valid|intros _; exact P]].
  destruct (binary_normalize _ _ _ _ _) as [[|]|[|]| |[|] m e];
    try discriminate P; reflexivity.
Qed.

(** [denom] is greater than zero for all counts. *)
Lemma denom_positive x y :
  0 <= x -> 0 <= y -> isPositive (denomOf x y) = true.
Proof.
  intros Hx Hy. unfold denomOf.
  destruct (of_uint_nonneg x Hx) as [Nx Vx].
  destruct (of_uint_nonneg y Hy) as [Ny Vy].
  destruct (add_nonneg _ _ Nx Vx Ny Vy) as (Ns & Vs & _).
  assert (Vc : valid_binary prec emax c0_01 = true) by (vm_compute; reflexivity).
  assert (Nc : isNonneg c0_01 = true) by (vm_compute; reflexivity).
  assert (Pc : isPositive c0_01 = true) by (vm_compute; reflexivity).
  destruct (add_nonneg _ _ Ns Vs Nc Vc) as (_ & _ & H). exact (H Pc).
Qed.

Lemma ltb_zero_positive d : isPositive d = true -> ltb zero d = true.
Proof.
  destruct d as [[|]|[|]| |[|] m e]; try discriminate; reflexivity.
Qed.

Lemma div_zero_positive d :
  isPositive d = true -> div zero d = zero.
Proof.
  destruct d as [[|]|[|]| |[|] m e]; try discriminate; reflexivity.
Qed.

End F32Signs.

(** The test [denom > 0.0f] of line 192 succeeds for all counts: the ratio
    0.5 of its else branch is never used, and the green time of road A is
    the rounded value of x / (x + y + 0.01) * 60 + 30. *)
Theorem fallback_ratio_unreachable x y :
  0 <= x -> 0 <= y ->
  F32.ltb F32.zero (denomOf x y) = true /\
  greenSeconds x y
  = F32.add (F32.mul (F32.div (F32.of_uint x) (denomOf x y)) F32.c60) F32.c30.
Proof.
  intros Hx Hy.
  pose proof (ltb_zero_positive _ (denom_positive x y Hx Hy)) as H.
  split; [exact H|].
  unfold greenSeconds. cbv zeta. fold (denomOf x y). rewrite H. reflexivity.
Qed.

(** A road on which no vehicle was counted gets the minimum: the green
    time of road A is exactly 30 s whatever the count of road B, which then
    gets 90 s. *)
Theorem empty_road_gets_minimum y s :
  0 <= y -> countA s = 0 -> countB s = y ->
  computeGreenMs 0 y = Some 30000 /\
  exists s', startExecutionPhase s = Some s' /\
    greenDurationA s' = 30000 /\ greenDurationB s' = 90000.
Proof.
  intros Hy HA HB.
  assert (G : computeGreenMs 0 y = Some 30000).
  { pose proof (denom_positive 0 y (Z.le_refl 0) Hy) as P.
    unfold computeGreenMs, greenSeconds. cbv zeta. fold (denomOf 0 y).
    rewrite (ltb_zero_positive _ P).
    change (F32.of_uint 0) with F32.zero at 1.
    rewrite (div_zero_positive _ P). vm_compute. reflexivity. }
  split; [exact G|].
  rewrite <- HA, <- HB in G.
  destruct (startExecutionPhase_fields s 30000 G) as (s' & E & GA & GB & _).
  exists s'. split; [exact E|]. split; [exact GA|]. rewrite GB. reflexivity.
Qed.

(** ** A whole execution window *)



(** ** Button reads that are not confirmed *)

Lemma delay_0 s : delay 0 s = s.
Proof.
  destruct s. unfold delay, set_clock. cbn. rewrite Z.add_0_r. reflexivity.
Qed.

Lemma delay_delay a b s : delay a (delay b s) = delay (b + a) s.
Proof.
  unfold delay, set_clock. cbn. rewrite Z.add_assoc. reflexivity.
Qed.

(** A first read LOW that the second read, 10 ms later, does not confirm
    triggers nothing: the button checks only take time, and the iteration
    runs the state machine on the unchanged state, with [now] as sampled
    before the checks. *)
Theorem unconfirmed_press_is_ignored inp s :
  pressedA inp = false -> pressedB inp = false ->
  checkButtons inp s = delay (buttonDelay inp) s /\
  loop inp s
  = option_map (delay 1)
      (stateMachine inp (millis (delay (idle inp) s))
         (delay (idle inp + buttonDelay inp) s)).
Proof.
  intros PA PB.
  assert (E : forall s0, checkButtons inp s0 = delay (buttonDelay inp) s0).
  { intros s0. unfold checkButtons, pressedA, pressedB, buttonDelay in *.
    rewrite (checkButton_not_pressed_eq _ _ 1 s0 PA).
    rewrite (checkButton_not_pressed_eq _ _ 2 _ PB).
    destruct (Bool.eqb (readA1 inp) LOW), (Bool.eqb (readB1 inp) LOW);
      rewrite ?delay_delay; cbn [Z.add]; rewrite ?delay_0; reflexivity. }
  split; [apply E|].
  unfold loop. cbv zeta. rewrite E, delay_delay. reflexivity.
Qed.

(** ** The emergency deadline *)

Lemma insideWindow_app P : forall Q s,
  insideWindow (P ++ Q) s = true ->
  exists s1, run P s = Some s1 /\ insideWindow P s = true /\ insideWindow Q s1 = true.
Proof.
  induction P as [|i P IH]; intros Q s H.
  - exists s. split; [reflexivity|]. split; [reflexivity|exact H].
  - cbn [app insideWindow] in H. apply andb_prop in H as [H12 H3].
    destruct (loop i s) as [s2|] eqn:L; [|discriminate].
    destruct (IH Q s2 H3) as (s1 & R & W1 & W2).
    exists s1. split; [cbn [run]; rewrite L; exact R|].
    split; [|exact W2]. cbn [insideWindow]. rewrite H12, L. exact W1.
Qed.

Lemma pollA_counter inp s :
  snd (pollA inp s) = countA s \/ snd (pollA inp s) = wrap16 (countA s + 1).
Proof.
  unfold pollA, updateSensor, measureDistanceCM. cbn [fst].
  match goal with
  | |- context [debounce ?p ?n ?ss ?c] =>
      destruct (debounce_counter_cases p n ss c) as [E|(E & _)]
  end; rewrite E; auto.
Qed.

Lemma pollB_counter inp s :
  snd (pollB inp s) = countB s \/ snd (pollB inp s) = wrap16 (countB s + 1).
Proof.
  unfold pollB, updateSensor, measureDistanceCM. cbn [fst].
  match goal with
  | |- context [debounce ?p ?n ?ss ?c] =>
      destruct (debounce_counter_cases p n ss c) as [E|(E & _)]
  end; rewrite E; auto.
Qed.

(** The button checks do not touch the plan. *)
Lemma checkButton_plan r1 r2 road s :
  greenDurationA (checkButton r1 r2 road s) = greenDurationA s /\
  greenDurationB (checkButton r1 r2 road s) = greenDurationB s /\
  executingAfirst (checkButton r1 r2 road s) = executingAfirst s.
Proof.
  unfold checkButton, triggerEmergency.
  destruct (Bool.eqb r1 LOW), (Bool.eqb r2 LOW), (road =? 1); repeat split.
Qed.

Lemma checkButtons_plan inp s :
  greenDurationA (checkButtons inp s) = greenDurationA s /\
  greenDurationB (checkButtons inp s) = greenDurationB s /\
  executingAfirst (checkButtons inp s) = executingAfirst s.
Proof.
  unfold checkButtons.
  destruct (checkButton_plan (readB1 inp) (readB2 inp) 2
              (checkButton (readA1 inp) (readA2 inp) 1 s)) as (A1 & A2 & A3).
  destruct (checkButton_plan (readA1 inp) (readA2 inp) 1 s) as (B1 & B2 & B3).
  rewrite A1, A2, A3, B1, B2, B3. repeat split.
Qed.

Lemma endEmergency_emerStart s : emerStart (delay 1 (endEmergency s)) = emerStart s.
Proof. reflexivity. Qed.

(** C5. The reset that the [STATE_EMERGENCY] case is meant to perform once
    the emergency green has elapsed happens in the iteration that observed
    the signal, not at the deadline.  In that iteration [now] precedes the
    [emerStart] that [triggerEmergency] stored by 10 or 20 ms, the unsigned
    test of line 375 succeeds, and the case clears the emergency, resets both
    counters and both sensor states and goes to [STATE_COUNTING] without
    computing an allocation (the counts accumulated before the signal are
    discarded there).  In the iterations that follow while the counting
    window so opened has not elapsed and no signal is observed, among them
    the first one at or past [emerStart + EMERGENCY_GREEN_MS], the mode is
    [STATE_COUNTING] before and after, the window is not restarted, and each
    counter keeps its value or is incremented by a poll: nothing is reset at
    the deadline, and the vehicles counted since the signal stay counted. *)
Theorem emergency_reset_at_trigger_not_deadline inp0 s s0 inps inp :
  pressedA inp0 || pressedB inp0 = true ->
  loop inp0 s = Some s0 ->
  insideWindow (inps ++ [inp]) s0 = true ->
  let t0 := delay (idle inp0) s in
  let b := checkButtons inp0 t0 in
  (emerStart b = wrap32 (clock t0 + 10) \/ emerStart b = wrap32 (clock t0 + 20)) /\
  (EMERGENCY_GREEN_MS <=? wrap32 (millis t0 - emerStart b)) = true /\
  s0 = delay 1 (stepEmergency (millis t0) b) /\
  sysState s0 = STATE_COUNTING /\ emerActive s0 = false /\ emerRoad s0 = 0 /\
  countA s0 = 0 /\ countB s0 = 0 /\
  sA s0 = SensorState_init /\ sB s0 = SensorState_init /\
  greenDurationA s0 = greenDurationA s /\ greenDurationB s0 = greenDurationB s /\
  executingAfirst s0 = executingAfirst s /\
  exists s1 s', run inps s0 = Some s1 /\ loop inp s1 = Some s' /\
    sysState s1 = STATE_COUNTING /\ sysState s' = STATE_COUNTING /\
    emerStart s1 = emerStart b /\
    cycleStartTime s' = cycleStartTime s0 /\
    (countA s' = countA s1 \/ countA s' = wrap16 (countA s1 + 1)) /\
    (countB s' = countB s1 \/ countB s' = wrap16 (countB s1 + 1)).
Proof.
  intros P L W t0 b.
  pose proof (loop_pressed inp0 s P) as LP. fold t0 in LP. fold b in LP.
  destruct (checkButtons_pressed inp0 t0 P) as (_ & St & _). fold b in St.
  assert (T : (EMERGENCY_GREEN_MS <=? wrap32 (millis t0 - emerStart b)) = true).
  { unfold millis.
    destruct St as [E|E]; rewrite E; apply stale_now_expired;
      unfold EMERGENCY_GREEN_MS; lia. }
  assert (E0 : s0 = delay 1 (endEmergency b)) by congruence.
  destruct (endEmergency_fields b)
    as (G1&G2&G3&G4&G5&G6&G7&G8&G9&G10&G11&G12&_).
  cbv zeta in G1, G2, G3, G4, G5, G6, G7, G8, G9, G10, G11, G12.
  pose proof (endEmergency_emerStart b) as G13.
  destruct (checkButtons_plan inp0 t0) as (Q1 & Q2 & Q3).
  fold b in Q1, Q2, Q3.
  change (greenDurationA t0) with (greenDurationA s) in Q1.
  change (greenDurationB t0) with (greenDurationB s) in Q2.
  change (executingAfirst t0) with (executingAfirst s) in Q3.
  rewrite (stepEmergency_expired (millis t0) b T).
  rewrite <- E0 in G1, G2, G3, G4, G5, G6, G7, G8, G9, G10, G11, G12, G13.
  split; [exact St|]. split; [exact T|]. split; [exact E0|].
  split; [exact G1|]. split; [exact G2|]. split; [exact G3|].
  split; [exact G4|]. split; [exact G5|]. split; [exact G6|]. split; [exact G7|].
  split; [congruence|]. split; [congruence|]. split; [congruence|].
  destruct (insideWindow_app inps [inp] s0 W) as (s1 & R & W1 & W2).
  destruct (counting_run inps s0 G1 W1) as (s1' & R' & F).
  assert (s1' = s1) by congruence. subst s1'.
  destruct F as (F1 & F2 & _ & _ & _ & _ & _ & F8 & _).
  assert (M1 : sysState s1 = STATE_COUNTING) by (rewrite F1; exact G1).
  cbn [insideWindow] in W2.
  apply andb_prop in W2 as [W2 _]. apply andb_prop in W2 as [Wp Wt].
  apply negb_true_iff, orb_false_elim in Wp as [PA PB].
  apply Z.ltb_lt in Wt.
  destruct (counting_tick inp s1 M1 PA PB Wt) as (s' & L' & F' & Hp).
  destruct F' as (F1' & F2' & _).
  exists s1, s'. split; [exact R|]. split; [exact L'|]. split; [exact M1|].
  split; [rewrite F1'; exact M1|]. split; [congruence|]. split; [congruence|].
  cbv zeta in Hp.
  destruct (SENSOR_POLL_MS <=? _).
  - destruct Hp as (HA & HB & _).
    assert (CA : countA s' = snd (pollA inp (delay (idle inp + buttonDelay inp) s1)))
      by (rewrite <- HA; reflexivity).
    assert (CB : countB s' = snd (pollB inp (delay (idle inp + buttonDelay inp) s1)))
      by (rewrite <- HB; reflexivity).
    rewrite CA, CB.
    split; [exact (pollA_counter inp (delay (idle inp + buttonDelay inp) s1))
           |exact (pollB_counter inp (delay (idle inp + buttonDelay inp) s1))].
  - destruct Hp as (_ & HA & _ & HB & _). rewrite HA, HB. auto.
Qed.

Lemma emergency_reset_at_trigger_not_deadline_witness :
  exists s1 s', run [vehicleOnA 100; quietInput 200] afterPressA = Some s1 /\
    loop (quietInput 10000) s1 = Some s' /\
    countA s1 = 1 /\
    emerStart s1 + EMERGENCY_GREEN_MS <= millis (delay (idle (quietInput 10000)) s1) /\
    sysState s' = STATE_COUNTING /\ countA s' = 1.
Proof.
  destruct (emergency_reset_at_trigger_not_deadline pressA (setup power_on) afterPressA
              [vehicleOnA 100; quietInput 200] (quietInput 10000))
    as (_ & _ & _ & _ & _ & _ & _ & _ & _ & _ & _ & _ & _ & s1 & s' & R & L & _ & M & _).
  - reflexivity.
  - vm_compute. reflexivity.
  - vm_compute. reflexivity.
  - exists s1, s'. split; [exact R|]. split; [exact L|].
    vm_compute in R. injection R as R. rewrite <- R in L. vm_compute in L.
    injection L as L. rewrite <- R, <- L.
    split; [reflexivity|]. split; [vm_compute; discriminate|].
    split; reflexivity.
Defined.

(** ** The order of the plan *)

(** C7. The iteration that ends a counting window builds the plan from the
    counts of that window, that is the counters as the last poll of the
    window leaves them ([cA] and [cB] below: the counters before the
    iteration, advanced by the poll of this iteration when one is due):
    the counters are passed on unchanged, [executingAfirst] is [cA >= cB]
    (road A on ties), and that road is given Green and the other Red as the
    first segment of the execution window. *)
Theorem busier_road_goes_first inp s :
  sysState s = STATE_COUNTING ->
  pressedA inp = false -> pressedB inp = false ->
  countsInRange s ->
  CYCLE_TOTAL_MS <= wrap32 (millis (delay (idle inp) s) - cycleStartTime s) ->
  let s1 := delay (idle inp + buttonDelay inp) s in
  let polled :=
    SENSOR_POLL_MS <=? wrap32 (millis (delay (idle inp) s) - lastSensorPoll s) in
  let cA := if polled then snd (pollA inp s1) else countA s in
  let cB := if polled then snd (pollB inp s1) else countB s in
  exists s', loop inp s = Some s' /\
    sysState s' = STATE_EXECUTING_TIMES /\
    countA s' = cA /\ countB s' = cB /\
    executingAfirst s' = (cB <=? cA) /\
    roadA s' = Some (if cB <=? cA then PHASE_GREEN else PHASE_RED) /\
    roadB s' = Some (if cB <=? cA then PHASE_RED else PHASE_GREEN).
Proof.
  intros M PA PB HC T s1 polled cA cB.
  destruct (loop_not_pressed inp s PA PB) as (s2 & E & F & C).
  pose proof (sameButClock_fields s2 s F)
    as (F1&F2&F3&F4&F5&F6&F7&F8&F9&F10&F11&F12&F13&F14&F15).
  set (now := millis (delay (idle inp) s)) in *.
  unfold stateMachine in E. rewrite F1, M in E.
  assert (HC2 : countsInRange s2) by (unfold countsInRange; rewrite F2, F3; exact HC).
  destruct (stepCounting_poll inp now s2) as (sp & E1 & _ & Hc & Hp).
  specialize (Hc HC2). rewrite F7 in E1. rewrite F8 in Hp. fold polled in Hp.
  apply Z.leb_le in T. rewrite T in E1. rewrite E1 in E.
  assert (KA : countA sp = cA /\ countB sp = cB).
  { unfold cA, cB. destruct polled.
    - destruct Hp as (HA & HB & _).
      assert (XA : pollA inp s2 = pollA inp s1)
        by (apply pollA_ext; [exact F4|exact F2|rewrite C; cbn [s1 delay clock set_clock]; lia]).
      assert (XB : pollB inp s2 = pollB inp s1)
        by (apply pollB_ext; [exact F5|exact F3|rewrite C; cbn [s1 delay clock set_clock]; lia]).
      rewrite <- XA, <- XB, <- HA, <- HB. split; reflexivity.
    - subst sp. split; assumption. }
  destruct KA as [KA KB].
  destruct (startExecutionPhase_spec sp Hc)
    as (g & s' & _ & _ & E' & _ & _ & Fi & Me & _ & Ca & Cb & _ & FG).
  rewrite E' in E. cbn [option_map] in E.
  exists (delay 1 s'). split; [exact E|].
  rewrite roadA_delay, roadB_delay.
  change (sysState s' = STATE_EXECUTING_TIMES /\
          countA s' = cA /\ countB s' = cB /\
          executingAfirst s' = (cB <=? cA) /\
          roadA s' = Some (if cB <=? cA then PHASE_GREEN else PHASE_RED) /\
          roadB s' = Some (if cB <=? cA then PHASE_RED else PHASE_GREEN)).
  destruct FG as [RA RB]. rewrite Fi in RA, RB. rewrite KA, KB in *.
  repeat split; congruence.
Qed.

Lemma busier_road_goes_first_witness :
  exists s', loop (quietInput 120000) (withCounts 4 9) = Some s' /\
    sysState s' = STATE_EXECUTING_TIMES /\
    countA s' = 4 /\ countB s' = 9 /\ executingAfirst s' = false /\
    roadA s' = Some PHASE_RED /\ roadB s' = Some PHASE_GREEN.
Proof.
  destruct (busier_road_goes_first (quietInput 120000) (withCounts 4 9))
    as (s' & L & M & CA & CB & F & RA & RB).
  - reflexivity.
  - reflexivity.
  - reflexivity.
  - unfold countsInRange. simpl. lia.
  - vm_compute. discriminate.
  - exists s'. split; [exact L|]. split; [exact M|].
    split; [exact CA|]. split; [exact CB|]. split; [exact F|].
    split; [exact RA|exact RB].
Defined.

(** ** Instances *)

Lemma lights_frozen_while_counting_witness :
  exists s', run [quietInput 10; vehicleOnA 100] (setup power_on) = Some s' /\
    sysState s' = STATE_COUNTING /\
    roadA s' = Some PHASE_RED /\ roadB s' = Some PHASE_RED.
Proof.
  destruct (lights_frozen_while_counting [quietInput 10; vehicleOnA 100] (setup power_on))
    as (s' & R & M & A & B & _).
  - reflexivity.
  - vm_compute. reflexivity.
  - exists s'. split; [exact R|]. split; [exact M|]. split; [exact A|exact B].
Defined.

Lemma counting_iteration_polls_once_witness :
  exists s', loop (vehicleOnA 60) (setup power_on) = Some s' /\
    sysState s' = STATE_COUNTING.
Proof.
  destruct (counting_iteration_polls_once (vehicleOnA 60) (setup power_on))
    as (s' & L & M & _).
  - reflexivity.
  - reflexivity.
  - reflexivity.
  - vm_compute. reflexivity.
  - exists s'. split; [exact L|exact M].
Defined.

Lemma counting_window_closes_on_time_witness :
  exists s', loop (quietInput 120000) (withCounts 4 9) = Some s' /\
    sysState s' = STATE_EXECUTING_TIMES.
Proof.
  destruct (counting_window_closes_on_time (quietInput 120000) (withCounts 4 9) 100)
    as (s' & L & M).
  - reflexivity.
  - reflexivity.
  - reflexivity.
  - unfold countsInRange. simpl. lia.
  - reflexivity.
  - vm_compute. split; [discriminate|reflexivity].
  - exists s'. split; [exact L|exact M].
Defined.

Lemma sensors_ignored_outside_counting_witness :
  loop (vehicleOnA 5) execExample = loop (quietInput 5) execExample /\
  exists s', loop (quietInput 5) execExample = Some s' /\
    sysState s' = STATE_EXECUTING_TIMES /\ countA s' = 0 /\ countB s' = 0.
Proof.
  destruct (sensors_ignored_outside_counting (quietInput 5) (vehicleOnA 5) execExample)
    as [A B].
  - repeat split.
  - left. vm_compute. discriminate.
  - split; [exact A|].
    destruct (B eq_refl eq_refl eq_refl) as (s' & L & [(M & CA & CB & _)|(M & _)]).
    + exists s'. split; [exact L|]. split; [exact M|]. split; [exact CA|exact CB].
    + exfalso. vm_compute in L. injection L as E. rewrite <- E in M. discriminate M.
Defined.

Lemma execution_window_end_resets_cycle_witness :
  exists s', loop (quietInput 126000) execExample = Some s' /\
    sysState s' = STATE_COUNTING /\ countA s' = 0 /\ countB s' = 0.
Proof.
  destruct (execution_window_end_resets_cycle (quietInput 126000) execExample)
    as (s' & L & M & A & B & _).
  - reflexivity.
  - reflexivity.
  - reflexivity.
  - unfold planFits, planTotal. simpl. lia.
  - vm_compute. discriminate.
  - exists s'. split; [exact L|]. split; [exact M|]. split; [exact A|exact B].
Defined.


Lemma emergency_green_lasts_counting_window_witness :
  exists s', run [quietInput 60000; vehicleOnA 50000] afterPressA = Some s' /\
    sysState s' = STATE_COUNTING /\
    roadA s' = Some PHASE_GREEN /\ roadB s' = Some PHASE_RED.
Proof.
  apply (emergency_green_lasts_counting_window pressA (setup power_on) afterPressA
           [quietInput 60000; vehicleOnA 50000]).
  - reflexivity.
  - vm_compute. reflexivity.
  - vm_compute. reflexivity.
Defined.

Lemma held_signal_restarts_window_witness :
  exists s', run ([pressA; pressB] ++ [pressA]) (setup power_on) = Some s' /\
    sysState s' = STATE_COUNTING /\ countA s' = 0 /\ countB s' = 0.
Proof.
  destruct (held_signal_restarts_window [pressA; pressB] pressA (setup power_on))
    as (s' & R & M & A & B & _).
  - repeat constructor.
  - exists s'. split; [exact R|]. split; [exact M|]. split; [exact A|exact B].
Defined.

Lemma counter_counts_pass_events_witness :
  snd (feed [(true, 100); (true, 160); (false, 280); (false, 340)] SensorState_init 65535)
  = wrap16 (65535 + Z.of_nat (passEvents [(true, 100); (true, 160); (false, 280); (false, 340)]
                                SensorState_init 65535)).
Proof.
  apply (counter_counts_pass_events
           [(true, 100); (true, 160); (false, 280); (false, 340)] SensorState_init 65535).
  lia.
Defined.

Lemma one_pass_needs_two_polls_witness :
  snd (feed [(true, 100); (true, 160); (false, 280); (false, 340)] SensorState_init 0)
  = Z.of_nat (passEvents [(true, 100); (true, 160); (false, 280); (false, 340)]
                SensorState_init 0).
Proof.
  apply (one_pass_needs_two_polls
           [(true, 100); (true, 160); (false, 280); (false, 340)] SensorState_init).
  simpl. lia.
Defined.

Lemma constant_reading_settles_witness :
  Nat.le (passEvents [(true, 10); (true, 100); (true, 200)] SensorState_init 0) 1.
Proof.
  apply (constant_reading_settles true [(true, 10); (true, 100); (true, 200)]
           SensorState_init 0).
  repeat constructor.
Defined.

Lemma presence_iff_echo_in_range_witness :
  isPresentAt (fst (measureDistanceCM 1160 2 (setup power_on)))
  = (58 <=? 1160) && (1160 <=? 3537).
Proof.
  apply (presence_iff_echo_in_range 1160 2 (setup power_on)). lia.
Defined.

Lemma fallback_ratio_unreachable_witness :
  F32.ltb F32.zero (denomOf 0 0) = true.
Proof.
  apply (fallback_ratio_unreachable 0 0); lia.
Defined.

Lemma empty_road_gets_minimum_witness :
  exists s', startExecutionPhase (withCounts 0 9) = Some s' /\
    greenDurationA s' = 30000 /\ greenDurationB s' = 90000.
Proof.
  apply (empty_road_gets_minimum 9 (withCounts 0 9)).
  - lia.
  - reflexivity.
  - reflexivity.
Defined.

Lemma unconfirmed_press_is_ignored_witness :
  checkButtons glitchA (setup power_on) = delay 10 (setup power_on).
Proof.
  apply (unconfirmed_press_is_ignored glitchA (setup power_on)).
  - reflexivity.
  - reflexivity.
Defined.
